(** * Linked book-visualisation views: data loader, aggregators and
      selection coordinator

    A shallow embedding of [utils/dataLoader.ts] and of the selection state
    kept by [Layout] in [App.tsx] (Homework 3), together with the properties
    the design document states about them.

    Conventions of the embedding.
    - A JavaScript [number] is [JS.number]: a not-a-number value, the two
      infinities, or a finite value.  Finite values are canonical rationals,
      which contain every finite double; the comparisons [>] and [>=] are the
      exact ones, as they are on doubles.  Floating-point addition and
      division round, so the two places that use them take the operation as
      a section variable.
    - A JavaScript [Map] keeps its keys in insertion order: it is an
      association list whose [set] overwrites in place or appends.
    - A JavaScript [Set<number>] that is only queried with [has] and [size]
      is a [gset].
    - React state is a record; an event handler is a function on it. *)

From Stdlib Require Import ZArith QArith Qcanon String Ascii List Lia.
From Stdlib Require Import Lqa Permutation Sorted.
From stdpp Require Import base decidable countable gmap sets list sorting strings.
Import ListNotations.

Local Open Scope string_scope.

(** ** JavaScript values *)

Module JS.

Inductive number : Type :=
| NaN
| NegInf
| Fin (q : Qc)
| PosInf.

#[global] Instance number_eq_dec : EqDecision number.
Proof. solve_decision. Defined.

Definition number_code (x : number) : option Qc + bool :=
  match x with
  | NaN => inl None
  | Fin q => inl (Some q)
  | NegInf => inr false
  | PosInf => inr true
  end.

Definition number_decode (c : option Qc + bool) : number :=
  match c with
  | inl None => NaN
  | inl (Some q) => Fin q
  | inr false => NegInf
  | inr true => PosInf
  end.

#[global] Instance number_countable : Countable number.
Proof.
  apply (inj_countable' number_code number_decode).
  intros []; reflexivity.
Defined.

(** Numeric literal. *)
Definition lit (q : Q) : number := Fin (Q2Qc q).
Definition of_nat (n : nat) : number := lit (inject_Z (Z.of_nat n)).

(** IEEE comparison: unordered as soon as one side is not a number. *)
Definition compare (a b : number) : option comparison :=
  match a, b with
  | NaN, _ | _, NaN => None
  | NegInf, NegInf => Some Eq
  | NegInf, _ => Some Lt
  | _, NegInf => Some Gt
  | PosInf, PosInf => Some Eq
  | PosInf, _ => Some Gt
  | _, PosInf => Some Lt
  | Fin p, Fin q => Some (p ?= q)%Qc
  end.

(** [a > b] *)
Definition gt (a b : number) : bool :=
  match compare a b with Some Gt => true | _ => false end.

(** [a >= b] *)
Definition ge (a b : number) : bool :=
  match compare a b with Some Gt | Some Eq => true | _ => false end.

(** Truthiness: [!x] holds of [0] and of not-a-number. *)
Definition truthy (a : number) : bool :=
  match a with
  | NaN => false
  | Fin q => negb (Qeq_bool q 0)
  | NegInf | PosInf => true
  end.

(** Truthiness of a string: [!s] holds of the empty string only. *)
Definition truthy_str (s : string) : bool :=
  match s with
  | EmptyString => false
  | String _ _ => true
  end.

(** [arr.includes(x)] on an array of strings. *)
Definition includes (arr : list string) (x : string) : bool :=
  existsb (String.eqb x) arr.

End JS.

Abbreviation number := JS.number.

(** ** [types.ts] *)

Record BookData : Type := mkBookData {
  id : number;
  title : string;
  author : string;
  genre : string;
  language : string;
  publicationYear : number;
  publisher : string;
  description : string;
  pageCount : number;
  tags : string;
  rating_average : number;
  most_popular_country : string;
  bestseller_status : bool;
  awards : string;
  age_category : string;
  adapted_to_movie : bool;
  movie_release_year : option number;
  isbn : string
}.

Record CountryData : Type := mkCountryData {
  country : string;
  cd_count : nat;
  cd_avgRating : number
}.

Record GenreData : Type := mkGenreData {
  gd_genre : string;
  count : nat;
  avgRating : number;
  avgPageCount : number
}.

Record SankeyNodeDatum : Type := mkNode {
  node_id : string;
  name : string
}.

Record SankeyLinkDatum : Type := mkLink {
  source : string;
  target : string;
  value : nat
}.

Record SankeyData : Type := mkSankeyData {
  nodes : list SankeyNodeDatum;
  links : list SankeyLinkDatum
}.

(** ** [getRatingTier] *)

Definition getRatingTier (rating : number) : string :=
  if JS.ge rating (JS.lit 4.5) then "Acclaimed (4.5+)"
  else if JS.ge rating (JS.lit 4.0) then "Highly Rated (4.0-4.5)"
  else if JS.ge rating (JS.lit 3.5) then "Well Rated (3.5-4.0)"
  else "Average (< 3.5)".

(** ** Selection coordinator: the state of [Layout] in [App.tsx] *)

Record SelectionState : Type := mkSelectionState {
  selectedGenre : option string;
  brushedIds : gset number;
  selectedSankeyNode : option string
}.

(** The three [useState] initial values. *)
Definition initialState : SelectionState :=
  {| selectedGenre := None; brushedIds := ∅; selectedSankeyNode := None |}.

Definition handleGenreSelect (genre : option string) (s : SelectionState)
  : SelectionState :=
  {| selectedGenre := genre;
     brushedIds := ∅;
     selectedSankeyNode := None |}.

Definition handleBrushChange (ids : gset number) (s : SelectionState)
  : SelectionState :=
  {| selectedGenre := selectedGenre s;
     brushedIds := ids;
     selectedSankeyNode := None |}.

Definition handleNodeSelect (nodeId : option string) (s : SelectionState)
  : SelectionState :=
  {| selectedGenre := selectedGenre s;
     brushedIds := ∅;
     selectedSankeyNode := nodeId |}.

(** The click handler of a Sankey node [d] in [SankeyDiagram.tsx]:
    [onNodeSelect(selectedSankeyNode === d.id ? null : d.id)].
    This is the toggling node selection of the design document. *)
Definition nodeClick (d_id : string) (s : SelectionState) : SelectionState :=
  handleNodeSelect
    (if bool_decide (selectedSankeyNode s = Some d_id) then None else Some d_id)
    s.

(** The click handler of a bar in [BarChart.tsx]:
    [onGenreSelect(d.genre === selectedGenre ? null : d.genre)]. *)
Definition barClick (d_genre : string) (s : SelectionState) : SelectionState :=
  handleGenreSelect
    (if bool_decide (Some d_genre = selectedGenre s) then None else Some d_genre)
    s.

(** Everything that can change the selection. *)
Inductive Event : Type :=
| GenreSelect (genre : option string)
| BrushChange (ids : gset number)
| NodeSelect (nodeId : option string)
| NodeClick (d_id : string)
| BarClick (d_genre : string).

Definition step (s : SelectionState) (e : Event) : SelectionState :=
  match e with
  | GenreSelect genre => handleGenreSelect genre s
  | BrushChange ids => handleBrushChange ids s
  | NodeSelect nodeId => handleNodeSelect nodeId s
  | NodeClick d_id => nodeClick d_id s
  | BarClick d_genre => barClick d_genre s
  end.

Inductive reachable : SelectionState -> Prop :=
| reachable_init : reachable initialState
| reachable_step s e : reachable s -> reachable (step s e).

Definition run (es : list Event) : SelectionState := foldl step initialState es.

(** At most one highlight source is active. *)
Definition one_source (s : SelectionState) : Prop :=
  ¬ (brushedIds s ≠ ∅ ∧ selectedSankeyNode s ≠ None).

(** ** Highlight derivation ([sankeyHighlightIds], [scatterHighlightIds]) *)

Definition genreNodeId (topGenres : list string) (b : BookData) : string :=
  "g_" ++ (if JS.includes topGenres (genre b) then genre b else "Others").

Definition ratingNodeId (b : BookData) : string :=
  "r_" ++ getRatingTier (rating_average b).

Definition movieNodeId (b : BookData) : string :=
  "m_" ++ (if adapted_to_movie b then "Adapted to Movie" else "Not Adapted").

Definition sankeyHighlightIds (selected : option string)
    (allBooks : list BookData) (topGenres : list string) : gset number :=
  match selected with
  | None => ∅
  | Some node =>
      if negb (JS.truthy_str node) then ∅
      else
        foldl
          (fun (result : gset number) b =>
             if JS.includes
                  [genreNodeId topGenres b; ratingNodeId b; movieNodeId b] node
             then {[ id b ]} ∪ result
             else result)
          ∅ allBooks
  end.

Definition scatterHighlightIds (s : SelectionState)
    (allBooks : list BookData) (topGenres : list string) : gset number :=
  if bool_decide (0 < size (brushedIds s))
  then brushedIds s
  else sankeyHighlightIds (selectedSankeyNode s) allBooks topGenres.

(** A record used in the examples: only the fields the views read vary. *)
Definition book (i : Z) (g : string) (rating : Q) (adapted : bool) : BookData :=
  {| id := JS.lit (inject_Z i); title := ""; author := ""; genre := g;
     language := ""; publicationYear := JS.lit 2000; publisher := "";
     description := ""; pageCount := JS.lit 200; tags := "";
     rating_average := JS.lit rating; most_popular_country := "";
     bestseller_status := false; awards := ""; age_category := "";
     adapted_to_movie := adapted; movie_release_year := None; isbn := "" |}.

(** ** [loadBookData] *)

(** A parsed CSV row before conversion: column name to cell, [None] when the
    row has no such column ([undefined]). *)
Definition Row : Type := string -> option string.

(** What the awaited [d3.csv] request gives: the rows, or a rejection whose
    error is caught and logged. *)
Inductive CsvSource : Type :=
| CsvRows (rows : list Row)
| CsvFailure (error : string).

Record LoadResult : Type := mkLoadResult {
  loaded : list BookData;
  console_error : list string
}.

Section Loader.

(** The unary plus on a cell and [String.prototype.toUpperCase]: both are
    the language's, not the repository's. *)
Variable toNumber : string -> number.
Variable toUpperCase : string -> string.

(** [+c!] : the plus of a missing cell is not a number. *)
Definition plus_cell (c : option string) : number :=
  match c with
  | Some s => toNumber s
  | None => JS.NaN
  end.

(** [c ? +c : 0] *)
Definition number_or_zero (c : option string) : number :=
  match c with
  | Some s => if JS.truthy_str s then toNumber s else JS.lit 0
  | None => JS.lit 0
  end.

(** [c ? +c : null] *)
Definition number_or_null (c : option string) : option number :=
  match c with
  | Some s => if JS.truthy_str s then Some (toNumber s) else None
  | None => None
  end.

(** [c?.toUpperCase() === 'TRUE'] *)
Definition is_TRUE (c : option string) : bool :=
  match c with
  | Some s => String.eqb (toUpperCase s) "TRUE"
  | None => false
  end.

(** [c!] for a text column.  The record type declares the text fields as
    strings and the model follows the declaration.  The assertion checks
    nothing when the program runs: for a source whose header lacks the
    column the code's record holds [undefined] where the model holds the
    empty string.  The tests [!genre] and [!most_popular_country] treat the
    two alike; [includes] and [===] do not ([includes] finds the empty
    string in a list that holds it and never finds [undefined]).  The
    properties of [loadBookData] below read the numeric fields only, whose
    missing cell is modelled as it is; the properties of the other functions
    are about records of the declared type. *)
Definition text_cell (c : option string) : string := default "" c.

(** The row conversion function passed to [d3.csv]. *)
Definition convertRow (d : Row) : BookData :=
  {| id := plus_cell (d "id");
     title := text_cell (d "title");
     author := text_cell (d "author");
     genre := text_cell (d "genre");
     language := text_cell (d "language");
     publicationYear := number_or_zero (d "publicationYear");
     publisher := text_cell (d "publisher");
     description := text_cell (d "description");
     pageCount := number_or_zero (d "pageCount");
     tags := text_cell (d "tags");
     rating_average := number_or_zero (d "rating_average");
     most_popular_country := text_cell (d "most_popular_country");
     bestseller_status := is_TRUE (d "bestseller_status");
     awards := text_cell (d "awards");
     age_category := text_cell (d "age_category");
     adapted_to_movie := is_TRUE (d "adapted_to_movie");
     movie_release_year := number_or_null (d "movie_release_year");
     isbn := text_cell (d "isbn") |}.

(** The predicate of the final [data.filter]. *)
Definition validBook (d : BookData) : bool :=
  JS.gt (pageCount d) (JS.lit 0)
  && JS.gt (rating_average d) (JS.lit 0)
  && JS.gt (publicationYear d) (JS.lit 0).

Definition loadBookData (src : CsvSource) : LoadResult :=
  match src with
  | CsvRows rows =>
      {| loaded := List.filter validBook (List.map convertRow rows);
         console_error := [] |}
  | CsvFailure error =>
      {| loaded := [];
         console_error := ["Error loading book data: " ++ error] |}
  end.

End Loader.

(** ** JavaScript [Map] with string keys *)

Module JSMap.
Section Ops.
Context {V : Type}.

(** The entries, oldest key first. *)
Definition t : Type := list (string * V).

Definition empty : t := [].

Fixpoint get (m : t) (k : string) : option V :=
  match m with
  | [] => None
  | (k', v) :: m' => if String.eqb k' k then Some v else get m' k
  end.

(** [m.set(k, v)]: an existing key keeps its place. *)
Fixpoint set (m : t) (k : string) (v : V) : t :=
  match m with
  | [] => [(k, v)]
  | (k', v') :: m' =>
      if String.eqb k' k then (k', v) :: m' else (k', v') :: set m' k v
  end.

Definition entries (m : t) : list (string * V) := m.
End Ops.
Arguments t : clear implicits.
End JSMap.

(** ** Aggregators *)

Record CountryStats : Type := mkCountryStats {
  cs_count : nat;
  cs_totalRating : number
}.

Record GenreStats : Type := mkGenreStats {
  gs_count : nat;
  gs_totalRating : number;
  gs_totalPages : number
}.

(** [Array.prototype.sort(cmp)].  The sort is stable, and for a comparator
    that is a consistent ordering the result is the one stable sorted
    arrangement, whatever algorithm the engine runs; insertion from the right
    computes it.  [cmp a b <= 0] keeps [a] before [b]. *)
Section Sort.
Context {A : Type}.
Variable cmp : A -> A -> Z.

Fixpoint sort_insert (x : A) (l : list A) : list A :=
  match l with
  | [] => [x]
  | y :: l' =>
      if (cmp x y <=? 0)%Z then x :: y :: l' else y :: sort_insert x l'
  end.

Fixpoint sort (l : list A) : list A :=
  match l with
  | [] => []
  | x :: l' => sort_insert x (sort l')
  end.
End Sort.

(** [arr.slice(0, n)] for an integer [n]: a negative end counts from the
    end of the array. *)
Definition slice0 {A : Type} (n : Z) (arr : list A) : list A :=
  if (n <? 0)%Z
  then firstn (Z.to_nat (Z.max (Z.of_nat (length arr) + n) 0)) arr
  else firstn (Z.to_nat n) arr.

(** [s.split(sep)] for a one-character separator.  Strings are byte
    sequences here; the separator used is ASCII, and no byte of a longer
    UTF-8 sequence equals an ASCII byte. *)
Fixpoint split (sep : ascii) (s : string) : list string :=
  match s with
  | EmptyString => [EmptyString]
  | String c s' =>
      if Ascii.eqb c sep then EmptyString :: split sep s'
      else match split sep s' with
           | [] => [String c EmptyString]
           | part :: parts => String c part :: parts
           end
  end.

Section Aggregators.

(** Addition and division of doubles. *)
Variable fadd : number -> number -> number.
Variable fdiv : number -> number -> number.

Definition countryStep (countryMap : JSMap.t CountryStats) (book : BookData)
  : JSMap.t CountryStats :=
  let country := most_popular_country book in
  if negb (JS.truthy_str country) then countryMap
  else
    let existing :=
      default {| cs_count := 0; cs_totalRating := JS.lit 0 |}
              (JSMap.get countryMap country) in
    JSMap.set countryMap country
      {| cs_count := cs_count existing + 1;
         cs_totalRating := fadd (cs_totalRating existing) (rating_average book) |}.

Definition aggregateByCountry (data : list BookData) : list CountryData :=
  List.map
    (fun '(country, stats) =>
       {| country := country;
          cd_count := cs_count stats;
          cd_avgRating :=
            fdiv (cs_totalRating stats) (JS.of_nat (cs_count stats)) |})
    (JSMap.entries (foldl countryStep JSMap.empty data)).

Definition genreStep (genreMap : JSMap.t GenreStats) (book : BookData)
  : JSMap.t GenreStats :=
  let genre := genre book in
  if negb (JS.truthy_str genre) then genreMap
  else
    let existing :=
      default {| gs_count := 0; gs_totalRating := JS.lit 0;
                 gs_totalPages := JS.lit 0 |}
              (JSMap.get genreMap genre) in
    JSMap.set genreMap genre
      {| gs_count := gs_count existing + 1;
         gs_totalRating := fadd (gs_totalRating existing) (rating_average book);
         gs_totalPages := fadd (gs_totalPages existing) (pageCount book) |}.

Definition genreMapOf (data : list BookData) : JSMap.t GenreStats :=
  foldl genreStep JSMap.empty data.

Definition aggregateByGenre (data : list BookData) : list GenreData :=
  List.map
    (fun '(genre, stats) =>
       {| gd_genre := genre;
          count := gs_count stats;
          avgRating :=
            fdiv (gs_totalRating stats) (JS.of_nat (gs_count stats));
          avgPageCount :=
            fdiv (gs_totalPages stats) (JS.of_nat (gs_count stats)) |})
    (JSMap.entries (genreMapOf data)).

(** The comparator [(a, b) => b.count - a.count]. *)
Definition byCountDesc (a b : GenreData) : Z :=
  (Z.of_nat (count b) - Z.of_nat (count a))%Z.

Definition getTopGenres (data : list BookData) (n : Z) : list string :=
  List.map gd_genre (slice0 n (sort byCountDesc (aggregateByGenre data))).

End Aggregators.

(** ** [prepareSankeyData] *)

Definition movieStatusOf (book : BookData) : string :=
  if adapted_to_movie book then "Adapted to Movie" else "Not Adapted".

Definition processedGenreOf (topGenreList : list string) (book : BookData)
  : string :=
  if JS.includes topGenreList (genre book) then genre book else "Others".

(** [(links.get(k) || 0) + 1] *)
Definition bump (links : JSMap.t nat) (k : string) : JSMap.t nat :=
  JSMap.set links k (default 0 (JSMap.get links k) + 1).

Definition sankeyStep (topGenreList : list string)
    (acc : JSMap.t string * JSMap.t nat) (book : BookData)
  : JSMap.t string * JSMap.t nat :=
  let '(nodesMap, links) := acc in
  if negb (JS.truthy_str (genre book)) || negb (JS.truthy (rating_average book))
  then acc
  else
    let processedGenre := processedGenreOf topGenreList book in
    let ratingTier := getRatingTier (rating_average book) in
    let movieStatus := movieStatusOf book in
    let genreId := "g_" ++ processedGenre in
    let ratingId := "r_" ++ ratingTier in
    let movieId := "m_" ++ movieStatus in
    let nodesMap := JSMap.set nodesMap genreId processedGenre in
    let nodesMap := JSMap.set nodesMap ratingId ratingTier in
    let nodesMap := JSMap.set nodesMap movieId movieStatus in
    let link1 := genreId ++ "|" ++ ratingId in
    let links := bump links link1 in
    let link2 := ratingId ++ "|" ++ movieId in
    let links := bump links link2 in
    (nodesMap, links).

(** [const [source, target] = key.split('|')]: the first two parts.  Every
    key holds a separator, so both exist. *)
Definition linkOfEntry (e : string * nat) : SankeyLinkDatum :=
  let parts := split "|" (fst e) in
  {| source := nth 0 parts ""; target := nth 1 parts ""; value := snd e |}.

Definition prepareSankeyData (data : list BookData) (topGenreList : list string)
  : SankeyData :=
  let '(nodesMap, links) :=
    foldl (sankeyStep topGenreList) (JSMap.empty, JSMap.empty) data in
  {| nodes := List.map (fun '(id, name) => {| node_id := id; name := name |})
                       (JSMap.entries nodesMap);
     links := List.map linkOfEntry (JSMap.entries links) |}.

(** Sum of the values of the links that satisfy [p]. *)
Definition flow (p : SankeyLinkDatum -> bool) (g : SankeyData) : nat :=
  list_sum (List.map value (List.filter p (links g))).

Definition inflow (node : string) (g : SankeyData) : nat :=
  flow (fun l => String.eqb (target l) node) g.

Definition outflow (node : string) (g : SankeyData) : nat :=
  flow (fun l => String.eqb (source l) node) g.

(** [s.startsWith(p)] *)
Fixpoint startsWith (p s : string) : bool :=
  match p, s with
  | EmptyString, _ => true
  | String _ _, EmptyString => false
  | String a p', String b s' => Ascii.eqb a b && startsWith p' s'
  end.

(** ** Vocabulary of the statements *)

(** The two records of the design document's scenario. *)
Definition demoBooks : list BookData :=
  [book 1 "Fiction" 4.6 true; book 2 "Fiction" 3.0 false].

(** The toggle law as the design document words it: from any state, two
    clicks on [X] leave no node selected. *)
Definition toggle_law (s : SelectionState) (X : string) : Prop :=
  selectedSankeyNode (nodeClick X (nodeClick X s)) = None.

(** Intervals of numbers, with the comparisons of the language. *)
Definition in_closed (lo hi : Q) (r : number) : Prop :=
  JS.ge r (JS.lit lo) = true /\ JS.ge (JS.lit hi) r = true.

Definition in_half_open (lo hi : Q) (r : number) : Prop :=
  JS.ge r (JS.lit lo) = true /\ JS.gt (JS.lit hi) r = true.

(** The tier table of the design document. *)
Definition tier_table (r : number) : Prop :=
  (getRatingTier r = "Acclaimed (4.5+)" <-> in_closed 4.5 5 r)
  /\ (getRatingTier r = "Highly Rated (4.0-4.5)" <-> in_half_open 4.0 4.5 r)
  /\ (getRatingTier r = "Well Rated (3.5-4.0)" <-> in_half_open 3.5 4.0 r)
  /\ (getRatingTier r = "Average (< 3.5)" <-> in_half_open 0 3.5 r).

(** The three node ids derived from a record. *)
Definition nodeTriple (topGenres : list string) (b : BookData) : list string :=
  [genreNodeId topGenres b; ratingNodeId b; movieNodeId b].

(** Every brushed id is stale: no record of the list carries it. *)
Definition stale_only (s : SelectionState) (records : list BookData) : Prop :=
  forall i, i ∈ brushedIds s -> ~ exists b, b ∈ records /\ id b = i.

(** The highlight matches no record of the list. *)
Definition highlights_none (s : SelectionState) (records : list BookData)
    (topGenres : list string) : Prop :=
  forall b, b ∈ records -> id b ∉ scatterHighlightIds s records topGenres.

(** A decimal reader and an identity upper-casing, to run the loader on
    examples. *)
Fixpoint readDigits (s : string) (acc : Z) : option Z :=
  match s with
  | EmptyString => Some acc
  | String c s' =>
      let d := (Z.of_nat (nat_of_ascii c) - 48)%Z in
      if ((0 <=? d) && (d <=? 9))%Z then readDigits s' (10 * acc + d)%Z
      else None
  end.

Definition demoNumber (s : string) : number :=
  match readDigits s 0 with
  | Some z => JS.lit (inject_Z z)
  | None => JS.NaN
  end.

Definition demoRow (i pages rating year : string) : Row :=
  fun column =>
    if String.eqb column "id" then Some i
    else if String.eqb column "pageCount" then Some pages
    else if String.eqb column "rating_average" then Some rating
    else if String.eqb column "publicationYear" then Some year
    else if String.eqb column "genre" then Some "Fiction"
    else None.

(** The (source, target) pairs of the links of a graph, in order. *)
Definition linkPairs (g : SankeyData) : list (string * string) :=
  List.map (fun l => (source l, target l)) (links g).

(** Two records of one genre whose name holds the separator of the link
    keys, in two different rating tiers. *)
Definition pipeBooks : list BookData :=
  [book 1 "a|b" 4.6 false; book 2 "a|b" 3.0 false].

(** Exact sum and quotient, to run the aggregators on examples. *)
Definition exactAdd (a b : number) : number :=
  match a, b with
  | JS.Fin p, JS.Fin q => JS.Fin (p + q)%Qc
  | _, _ => JS.NaN
  end.

Definition exactDiv (a b : number) : number :=
  match a, b with
  | JS.Fin p, JS.Fin q => JS.Fin (p / q)%Qc
  | _, _ => JS.NaN
  end.

(** Number of records of genre [g]. *)
Definition freq (g : string) (data : list BookData) : nat :=
  length (List.filter (fun b => String.eqb (genre b) g) data).

(** Position of the first record of genre [g] (the length when there is
    none). *)
Fixpoint firstIndex (g : string) (data : list BookData) : nat :=
  match data with
  | [] => 0
  | b :: rest => if String.eqb (genre b) g then 0 else S (firstIndex g rest)
  end.

(** The ranking order: more records first, and among genres with as many
    records the one met first. *)
Definition ranks_before (data : list BookData) (g h : string) : Prop :=
  freq h data < freq g data
  \/ (freq h data = freq g data /\ firstIndex g data < firstIndex h data).

(** No separator in a string. *)
Definition pipe_free (s : string) : Prop := split "|" s = [s].

(** The order a stable descending sort by [key] produces from a list that
    was in the order [R]: larger keys first, equal keys as they stood. *)
Definition stable_desc {A : Type} (key : A -> Z) (R : relation A) (a b : A)
  : Prop :=
  (key b < key a)%Z \/ (key b = key a /\ R a b).

(** The order of first appearance of genres in the data. *)
Definition seen_before (data : list BookData) (g h : string) : Prop :=
  firstIndex g data < firstIndex h data.

(** The genres of the data that are not empty. *)
Definition is_genre_of (data : list BookData) (g : string) : Prop :=
  g <> "" /\ exists b, b ∈ data /\ genre b = g.

(** What the design document asks of the top genres: at most [n] names, a
    subsequence of the distinct non-empty genres in descending frequency. *)
Definition top_genres_claim (data : list BookData) (n : Z) (top : list string)
  : Prop :=
  (Z.of_nat (length top) <= n)%Z
  /\ exists ranking,
       top `sublist_of` ranking
       /\ NoDup ranking
       /\ (forall g, g ∈ ranking <-> is_genre_of data g)
       /\ StronglySorted (fun g h => freq h data <= freq g data) ranking.

Definition threeGenres : list BookData :=
  [book 1 "A" 4 true; book 2 "B" 3 false; book 3 "B" 3 false;
   book 4 "C" 3 false].

(** All genres in ranking order, before the slice. *)
Definition genreRanking (fadd fdiv : number -> number -> number)
    (data : list BookData) : list string :=
  List.map gd_genre (sort byCountDesc (aggregateByGenre fadd fdiv data)).

(** The record takes part in the graph: its genre is not empty and its
    rating is a number other than zero. *)
Definition flows (book : BookData) : bool :=
  JS.truthy_str (genre book) && JS.truthy (rating_average book).

(** The two link keys of a record. *)
Definition link1Key (topGenreList : list string) (b : BookData) : string :=
  ("g_" ++ processedGenreOf topGenreList b) ++ "|"
  ++ ("r_" ++ getRatingTier (rating_average b)).

Definition link2Key (b : BookData) : string :=
  ("r_" ++ getRatingTier (rating_average b)) ++ "|" ++ ("m_" ++ movieStatusOf b).

(** The link counters after the loop, and the loop on the counters alone. *)
Definition linkStep (topGenreList : list string) (links : JSMap.t nat)
    (b : BookData) : JSMap.t nat :=
  if flows b then bump (bump links (link1Key topGenreList b)) (link2Key b)
  else links.

Definition linksMapOf (data : list BookData) (topGenreList : list string)
  : JSMap.t nat :=
  snd (foldl (sankeyStep topGenreList) (JSMap.empty, JSMap.empty) data).

(** Sum of the counters whose key satisfies [p]. *)
Definition weight (p : string -> bool) (m : JSMap.t nat) : nat :=
  list_sum (List.map snd (List.filter (fun e => p (fst e)) m)).

(** Source and target read back from a key. *)
Definition sourceOfKey (k : string) : string := nth 0 (split "|" k) "".
Definition targetOfKey (k : string) : string := nth 1 (split "|" k) "".

(** ** More of [utils/dataLoader.ts] *)

(** [filterByGenres]: an empty selection leaves the data as it is. *)
Definition filterByGenres (data : list BookData) (genres : list string)
  : list BookData :=
  if Nat.eqb (length genres) 0 then data
  else List.filter (fun book => JS.includes genres (genre book)) data.

(** The country map of [aggregateByCountry] after the loop. *)
Definition countryMapOf (fadd : number -> number -> number)
    (data : list BookData) : JSMap.t CountryStats :=
  foldl (countryStep fadd) JSMap.empty data.

(** Number of records whose [key] is [g], and the counting loop
    [if (k) m.set(k, (m.get(k) || 0) + 1)] over a key of the records. *)
Definition freqBy (key : BookData -> string) (g : string)
    (data : list BookData) : nat :=
  length (List.filter (fun b => String.eqb (key b) g) data).

Definition countStep (key : BookData -> string) (m : JSMap.t nat)
    (b : BookData) : JSMap.t nat :=
  if JS.truthy_str (key b) then bump m (key b) else m.

Definition countBy (key : BookData -> string) (data : list BookData)
  : JSMap.t nat :=
  foldl (countStep key) JSMap.empty data.

(** Sum of all the counters of a map. *)
Definition total (m : JSMap.t nat) : nat := weight (fun _ => true) m.

(** Records whose [key] is not empty. *)
Definition keyed (key : BookData -> string) (data : list BookData)
  : list BookData :=
  List.filter (fun b => JS.truthy_str (key b)) data.

(** A record of a given country, for the examples. *)
Definition bookIn (i : Z) (c : string) : BookData :=
  {| id := JS.lit (inject_Z i); title := ""; author := ""; genre := "Fiction";
     language := ""; publicationYear := JS.lit 2000; publisher := "";
     description := ""; pageCount := JS.lit 200; tags := "";
     rating_average := JS.lit 4; most_popular_country := c;
     bestseller_status := false; awards := ""; age_category := "";
     adapted_to_movie := false; movie_release_year := None; isbn := "" |}.


(** [BarChart.tsx]: the groups that are bars, in drawing order:
    [aggregateByGenre(allBooks).filter(d => topGenres.includes(d.genre))
       .sort((a, b) => b.count - a.count)]. *)
Definition barGenreData (fadd fdiv : number -> number -> number)
    (allBooks : list BookData) (topGenres : list string) : list GenreData :=
  sort byCountDesc
    (List.filter (fun d => JS.includes topGenres (gd_genre d))
                 (aggregateByGenre fadd fdiv allBooks)).


(** The node map after the loop of [prepareSankeyData], and the loop on the
    node map alone. *)
Definition nodesMapOf (data : list BookData) (topGenreList : list string)
  : JSMap.t string :=
  fst (foldl (sankeyStep topGenreList) (JSMap.empty, JSMap.empty) data).

Definition nodeStep (topGenreList : list string) (nodesMap : JSMap.t string)
    (b : BookData) : JSMap.t string :=
  if flows b then
    JSMap.set
      (JSMap.set
         (JSMap.set nodesMap ("g_" ++ processedGenreOf topGenreList b)
            (processedGenreOf topGenreList b))
         ("r_" ++ getRatingTier (rating_average b))
         (getRatingTier (rating_average b)))
      ("m_" ++ movieStatusOf b) (movieStatusOf b)
  else nodesMap.

(** The ids of the nodes of a graph, in order. *)
Definition nodeIds (g : SankeyData) : list string :=
  List.map node_id (nodes g).

(** An id is its layer prefix followed by the display name. *)
Definition prefixed (k v : string) : Prop :=
  k = "g_" ++ v \/ k = "r_" ++ v \/ k = "m_" ++ v.

(** Number of flowing records that go from node [s] to node [t], in the
    first or in the second stage. *)
Definition passing (topGenreList : list string) (s t : string)
    (data : list BookData) : nat :=
  length (List.filter
            (fun b => flows b && String.eqb (genreNodeId topGenreList b) s
                      && String.eqb (ratingNodeId b) t) data)
  + length (List.filter
              (fun b => flows b && String.eqb (ratingNodeId b) s
                        && String.eqb (movieNodeId b) t) data).


(** ** The views of Homework 3 *)

(** [a < b] and [a <= b], false as soon as one side is not a number. *)
Definition js_lt (a b : number) : bool := JS.gt b a.
Definition js_le (a b : number) : bool := JS.ge b a.

(** Truthiness of [string | null]. *)
Definition truthy_opt (s : option string) : bool :=
  match s with
  | Some s => JS.truthy_str s
  | None => false
  end.

(** [selectedGenre && b.genre !== selectedGenre] *)
Definition otherGenre (selectedGenre : option string) (b : BookData) : bool :=
  match selectedGenre with
  | Some g => JS.truthy_str g && negb (String.eqb (genre b) g)
  | None => false
  end.


(** [ScatterPlot.tsx] (Homework 3): the books that are drawn. *)
Definition scatterKeeps (selectedGenre : option string) (d : BookData) : bool :=
  if js_le (pageCount d) (JS.lit 0)
     || js_lt (rating_average d) (JS.lit 3.0)
     || JS.ge (pageCount d) (JS.lit 1500)
  then false
  else if otherGenre selectedGenre d then false
  else true.

Definition scatterFilteredBooks (allBooks : list BookData)
    (selectedGenre : option string) : list BookData :=
  List.filter (scatterKeeps selectedGenre) allBooks.

(** [ScatterPlot.tsx] (Homework 2): [pageCount < 1500 && rating >= 3.0]. *)
Definition scatterKeeps2 (d : BookData) : bool :=
  js_lt (pageCount d) (JS.lit 1500) && JS.ge (rating_average d) (JS.lit 3.0).


Section Brush.

(** The two linear scales of the scatter plot are d3's. *)
Variable xScale : number -> number.
Variable yScale : number -> number.




End Brush.

(** [SankeyDiagram.tsx]: the node ids reached by the brushed books. *)
Definition brushedNodeIds (brushed : gset number)
    (filteredBooks : list BookData) (topGenres : list string) : gset string :=
  if bool_decide (0 < size brushed) then
    foldl (fun (acc : gset string) b =>
             if bool_decide (id b ∈ brushed) then
               {[ movieNodeId b ]}
               ∪ ({[ ratingNodeId b ]} ∪ ({[ genreNodeId topGenres b ]} ∪ acc))
             else acc)
          ∅ filteredBooks
  else ∅.

Definition getNodeOpacity (brushed : gset number)
    (selectedSankeyNode : option string) (filteredBooks : list BookData)
    (topGenres : list string) (nodeId : string) : number :=
  if bool_decide (0 < size brushed) then
    if bool_decide (nodeId ∈ brushedNodeIds brushed filteredBooks topGenres)
    then JS.lit 1.0 else JS.lit 0.15
  else if truthy_opt selectedSankeyNode then
    if bool_decide (Some nodeId = selectedSankeyNode)
    then JS.lit 1.0 else JS.lit 0.25
  else JS.lit 1.0.

Definition getLinkOpacity (brushed : gset number)
    (selectedSankeyNode : option string) (filteredBooks : list BookData)
    (topGenres : list string) (srcId tgtId : string) : number :=
  if bool_decide (0 < size brushed) then
    if bool_decide (srcId ∈ brushedNodeIds brushed filteredBooks topGenres)
       && bool_decide (tgtId ∈ brushedNodeIds brushed filteredBooks topGenres)
    then JS.lit 0.75 else JS.lit 0.05
  else if truthy_opt selectedSankeyNode then
    if bool_decide (Some srcId = selectedSankeyNode)
       || bool_decide (Some tgtId = selectedSankeyNode)
    then JS.lit 0.75 else JS.lit 0.05
  else JS.lit 0.45.

(** The rank of a tier label, Average lowest. *)
Definition tierRank (label : string) : nat :=
  if String.eqb label "Acclaimed (4.5+)" then 3
  else if String.eqb label "Highly Rated (4.0-4.5)" then 2
  else if String.eqb label "Well Rated (3.5-4.0)" then 1
  else 0.

(** A numeric cell from which the loader gets nothing greater than zero:
    absent, empty, or read as zero, a negative number or not a number. *)
Definition unusable (toNumber : string -> number) (c : option string) : Prop :=
  c = None \/ c = Some ""
  \/ exists s, c = Some s /\ JS.gt (toNumber s) (JS.lit 0) = false.

(** ** [prepareSankeyData] of Homework 2 *)

(** The genre counters of the first loop. *)
Definition genreCounts (data : list BookData) : JSMap.t nat :=
  foldl (fun (genreCounts : JSMap.t nat) book =>
           if JS.truthy_str (genre book) then bump genreCounts (genre book)
           else genreCounts)
        JSMap.empty data.

(** The comparator [(a, b) => b[1] - a[1]] on entries. *)
Definition byEntryDesc (a b : string * nat) : Z :=
  (Z.of_nat (snd b) - Z.of_nat (snd a))%Z.

(** The ten most frequent genres, computed inside the function. *)
Definition topGenres10 (data : list BookData) : list string :=
  List.map fst (slice0 10 (sort byEntryDesc (JSMap.entries (genreCounts data)))).

Definition sankeyStep2 (topGenres : list string)
    (acc : JSMap.t string * JSMap.t nat) (book : BookData)
  : JSMap.t string * JSMap.t nat :=
  let '(nodesMap, links) := acc in
  if negb (JS.truthy_str (genre book)) || negb (JS.truthy_str (age_category book))
  then acc
  else
    let processedGenre :=
      if JS.includes topGenres (genre book) then genre book else "Others" in
    let movieStatus :=
      if adapted_to_movie book then "Adapted to Movie" else "Not Adapted" in
    let genreId := "g_" ++ processedGenre in
    let ageId := "a_" ++ age_category book in
    let movieId := "m_" ++ movieStatus in
    let nodesMap := JSMap.set nodesMap genreId processedGenre in
    let nodesMap := JSMap.set nodesMap ageId (age_category book) in
    let nodesMap := JSMap.set nodesMap movieId movieStatus in
    let link1 := genreId ++ "|" ++ ageId in
    let links := bump links link1 in
    let link2 := ageId ++ "|" ++ movieId in
    let links := bump links link2 in
    (nodesMap, links).

Definition prepareSankeyData2 (data : list BookData) : SankeyData :=
  let topGenres := topGenres10 data in
  let '(nodesMap, links) :=
    foldl (sankeyStep2 topGenres) (JSMap.empty, JSMap.empty) data in
  {| nodes := List.map (fun '(id, name) => {| node_id := id; name := name |})
                       (JSMap.entries nodesMap);
     links := List.map linkOfEntry (JSMap.entries links) |}.

(** A record of Homework 2 flows when it has a genre and an age category. *)
Definition flows2 (book : BookData) : bool :=
  JS.truthy_str (genre book) && JS.truthy_str (age_category book).

(** A record with an age category, for the examples. *)
Definition bookAged (i : Z) (g a : string) (adapted : bool) : BookData :=
  {| id := JS.lit (inject_Z i); title := ""; author := ""; genre := g;
     language := ""; publicationYear := JS.lit 2000; publisher := "";
     description := ""; pageCount := JS.lit 200; tags := "";
     rating_average := JS.lit 4; most_popular_country := "";
     bestseller_status := false; awards := ""; age_category := a;
     adapted_to_movie := adapted; movie_release_year := None; isbn := "" |}.


(** The nodes of the genre layer of a graph. *)
Definition genreNodes (g : SankeyData) : list SankeyNodeDatum :=
  List.filter (fun nd => startsWith "g_" (node_id nd)) (nodes g).

(** The two link keys of a record in Homework 2, and the loop on the link
    counters alone. *)
Definition link1Key2 (topGenres : list string) (b : BookData) : string :=
  ("g_" ++ (if JS.includes topGenres (genre b) then genre b else "Others"))
  ++ "|" ++ ("a_" ++ age_category b).

Definition link2Key2 (b : BookData) : string :=
  ("a_" ++ age_category b) ++ "|"
  ++ ("m_" ++ (if adapted_to_movie b then "Adapted to Movie" else "Not Adapted")).

Definition linkStep2 (topGenres : list string) (links : JSMap.t nat)
    (b : BookData) : JSMap.t nat :=
  if flows2 b then bump (bump links (link1Key2 topGenres b)) (link2Key2 b)
  else links.

(** The entries of the genre map ordered like the groups. *)
Definition byStatsDesc (a b : string * GenreStats) : Z :=
  (Z.of_nat (gs_count (snd b)) - Z.of_nat (gs_count (snd a)))%Z.

(** * Properties *)

(** ** Comparisons of numbers *)

Lemma ge_Fin (p q : Qc) : JS.ge (JS.Fin p) (JS.Fin q) = true <-> (q <= p)%Qc.
Proof.
  assert (H : (q <= p)%Qc <-> (p ?= q)%Qc <> Lt) by apply Qcge_alt.
  rewrite H. unfold JS.ge, JS.compare.
  destruct (p ?= q)%Qc; split; intros; congruence.
Qed.

Lemma gt_Fin (p q : Qc) : JS.gt (JS.Fin p) (JS.Fin q) = true <-> (q < p)%Qc.
Proof.
  assert (H : (q < p)%Qc <-> (p ?= q)%Qc = Gt) by apply Qcgt_alt.
  rewrite H. unfold JS.gt, JS.compare.
  destruct (p ?= q)%Qc; split; intros; congruence.
Qed.

Lemma ge_false_Fin (p q : Qc) :
  JS.ge (JS.Fin p) (JS.Fin q) = false <-> (p < q)%Qc.
Proof.
  rewrite <- not_true_iff_false, ge_Fin. split.
  - apply Qcnot_le_lt.
  - apply Qclt_not_le.
Qed.

(** A number that compares with a finite one on both sides is finite. *)
Lemma between_Fin (lo hi : Qc) (r : number) :
  JS.ge r (JS.Fin lo) = true -> JS.ge (JS.Fin hi) r = true ->
  exists q, r = JS.Fin q.
Proof. destruct r; try discriminate. eauto. Qed.

(** ** The selection coordinator *)

Lemma step_one_source (s : SelectionState) (e : Event) : one_source (step s e).
Proof.
  unfold one_source. destruct e; simpl; intros [Hb Hn];
    solve [ apply Hb; reflexivity | apply Hn; reflexivity ].
Qed.

Lemma run_reachable (es : list Event) : reachable (run es).
Proof.
  unfold run. induction es as [|e es IH] using rev_ind.
  - apply reachable_init.
  - rewrite foldl_snoc. apply reachable_step, IH.
Qed.

Lemma reachable_run (s : SelectionState) :
  reachable s -> exists es, s = run es.
Proof.
  induction 1 as [|s e _ [es ->]].
  - exists []. reflexivity.
  - exists (es ++ [e])%list. unfold run. rewrite foldl_snoc. reflexivity.
Qed.

(** C2.  In every state reachable from the initial selection by any sequence
    of genre selections, brushes and node selections (the handlers themselves
    or the toggling clicks of the views), the brush and the node selection
    are never both active; a brush clears the node selection, a node
    selection clears the brush, and a genre selection clears both. *)
Theorem reachable_one_source (s : SelectionState) :
  reachable s ->
  one_source s
  /\ (forall ids, selectedSankeyNode (handleBrushChange ids s) = None)
  /\ (forall nodeId, brushedIds (handleNodeSelect nodeId s) = ∅)
  /\ (forall d_id, brushedIds (nodeClick d_id s) = ∅)
  /\ (forall genre,
        brushedIds (handleGenreSelect genre s) = ∅
        /\ selectedSankeyNode (handleGenreSelect genre s) = None).
Proof.
  intros Hs. split; [|repeat split].
  destruct Hs as [|s e _].
  - intros [Hb _]. apply Hb. reflexivity.
  - apply step_one_source.
Qed.

Lemma reachable_one_source_witness :
  reachable (run [BrushChange {[ JS.lit 1 ]}; NodeClick "g_Fiction"])
  /\ one_source (run [BrushChange {[ JS.lit 1 ]}; NodeClick "g_Fiction"]).
Proof.
  assert (Hs : reachable (run [BrushChange {[ JS.lit 1 ]}; NodeClick "g_Fiction"]))
    by apply run_reachable.
  split; [exact Hs|]. exact (proj1 (reachable_one_source _ Hs)).
Defined.

(** The node click, case by case. *)
Lemma nodeClick_same (s : SelectionState) (X : string) :
  selectedSankeyNode s = Some X ->
  selectedSankeyNode (nodeClick X s) = None.
Proof. intros H. unfold nodeClick. rewrite bool_decide_eq_true_2; done. Qed.

Lemma nodeClick_other (s : SelectionState) (X : string) :
  selectedSankeyNode s <> Some X ->
  selectedSankeyNode (nodeClick X s) = Some X /\ brushedIds (nodeClick X s) = ∅.
Proof. intros H. unfold nodeClick. rewrite bool_decide_eq_false_2; done. Qed.

(** C3, as stated, fails on a state in which [X] is already selected: the
    first click clears the selection and the second selects [X] again. *)
Lemma toggle_law_fails_when_selected :
  ~ toggle_law (handleNodeSelect (Some "g_Fiction") initialState) "g_Fiction".
Proof. unfold toggle_law. vm_compute. discriminate. Qed.

(** C3, amended.  From every state in which [X] is not the selected node, two
    successive clicks on [X] leave no node selected.  In every state, a click
    on the selected node clears the selection, and a click on another node
    selects it and clears the brush. *)
Theorem nodeClick_toggle (s : SelectionState) (X : string) :
  selectedSankeyNode s <> Some X ->
  toggle_law s X
  /\ selectedSankeyNode (nodeClick X s) = Some X
  /\ brushedIds (nodeClick X s) = ∅
  /\ (forall s', selectedSankeyNode s' = Some X ->
                 selectedSankeyNode (nodeClick X s') = None).
Proof.
  intros Hne. destruct (nodeClick_other s X Hne) as [Hsel Hbr].
  repeat split; try assumption.
  - unfold toggle_law. apply nodeClick_same, Hsel.
  - intros s'. apply nodeClick_same.
Qed.

Lemma nodeClick_toggle_witness :
  selectedSankeyNode initialState <> Some "g_Fiction"
  /\ toggle_law initialState "g_Fiction".
Proof.
  assert (H : selectedSankeyNode initialState <> Some "g_Fiction")
    by discriminate.
  split; [exact H|]. exact (proj1 (nodeClick_toggle initialState "g_Fiction" H)).
Defined.

(** When [X] is selected, two clicks restore it. *)
Lemma nodeClick_twice_selected (s : SelectionState) (X : string) :
  selectedSankeyNode s = Some X ->
  selectedSankeyNode (nodeClick X (nodeClick X s)) = Some X.
Proof.
  intros H. apply nodeClick_other. rewrite (nodeClick_same s X H). discriminate.
Qed.

(** C4.  Whatever the state, selecting a genre [g] (or none) leaves
    [selectedGenre = g], an empty brush and no selected node; selecting the
    same genre again changes nothing. *)
Theorem handleGenreSelect_clears (g : option string) (s : SelectionState) :
  selectedGenre (handleGenreSelect g s) = g
  /\ brushedIds (handleGenreSelect g s) = ∅
  /\ selectedSankeyNode (handleGenreSelect g s) = None
  /\ handleGenreSelect g (handleGenreSelect g s) = handleGenreSelect g s.
Proof. repeat split. Qed.

(** ** Rating tiers *)

Ltac to_Qc :=
  unfold JS.lit in *;
  repeat match goal with
  | H : JS.ge (JS.Fin _) (JS.Fin _) = true |- _ => apply ge_Fin in H
  | H : JS.ge (JS.Fin _) (JS.Fin _) = false |- _ => apply ge_false_Fin in H
  | H : JS.gt (JS.Fin _) (JS.Fin _) = true |- _ => apply gt_Fin in H
  | |- JS.ge (JS.Fin _) (JS.Fin _) = true => apply ge_Fin
  | |- JS.gt (JS.Fin _) (JS.Fin _) = true => apply gt_Fin
  end.

Ltac Qc_order :=
  unfold Qcle, Qclt in *; simpl in *;
  repeat match goal with
  | |- context [Qred ?c] =>
      let v := eval vm_compute in (Qred c) in change (Qred c) with v
  | H : context [Qred ?c] |- _ =>
      let v := eval vm_compute in (Qred c) in change (Qred c) with v in H
  end;
  lra.

(** The thresholds as the code tests them, for every number: there is no
    upper bound on the first tier and no lower bound on the last, which also
    takes what is not a number. *)
Lemma getRatingTier_thresholds (r : number) :
  (getRatingTier r = "Acclaimed (4.5+)" <-> JS.ge r (JS.lit 4.5) = true)
  /\ (getRatingTier r = "Highly Rated (4.0-4.5)" <->
        JS.ge r (JS.lit 4.0) = true /\ JS.ge r (JS.lit 4.5) = false)
  /\ (getRatingTier r = "Well Rated (3.5-4.0)" <->
        JS.ge r (JS.lit 3.5) = true /\ JS.ge r (JS.lit 4.0) = false)
  /\ (getRatingTier r = "Average (< 3.5)" <-> JS.ge r (JS.lit 3.5) = false).
Proof.
  unfold getRatingTier.
  destruct r as [| |q|]; try (vm_compute; repeat split; intros;
    repeat match goal with H : _ /\ _ |- _ => destruct H end; congruence).
  destruct (JS.ge (JS.Fin q) (JS.lit 4.5)) eqn:E1;
    [|destruct (JS.ge (JS.Fin q) (JS.lit 4.0)) eqn:E2;
      [|destruct (JS.ge (JS.Fin q) (JS.lit 3.5)) eqn:E3]];
    repeat split; intros; try discriminate; try reflexivity;
    repeat match goal with H : _ /\ _ |- _ => destruct H end;
    try congruence; to_Qc; try Qc_order; exfalso; Qc_order.
Qed.

(** C6, as stated, fails above the scale: 6 is classified as acclaimed
    although it is outside [4.5, 5]. *)
Lemma tier_table_fails_above_scale : ~ tier_table (JS.lit 6).
Proof.
  intros [[H _] _]. destruct (H eq_refl) as [_ H5]. vm_compute in H5.
  discriminate.
Qed.

(** It fails below the scale as well: -1 is classified as average. *)
Lemma tier_table_fails_below_scale : ~ tier_table (JS.lit (-1)).
Proof.
  intros (_ & _ & _ & [H _]). destruct (H eq_refl) as [H0 _].
  vm_compute in H0. discriminate.
Qed.

(** C6, amended.  For every rating [r] of the scale, that is with
    [0 <= r <= 5], [getRatingTier r] is the acclaimed tier iff [r] is in
    [4.5, 5], highly rated iff in [4.0, 4.5), well rated iff in [3.5, 4.0)
    and average iff in [0, 3.5); 4.6 is acclaimed and 3.0 is average. *)
Theorem getRatingTier_table (r : number) :
  in_closed 0 5 r ->
  tier_table r
  /\ getRatingTier (JS.lit 4.6) = "Acclaimed (4.5+)"
  /\ getRatingTier (JS.lit 3.0) = "Average (< 3.5)".
Proof.
  intros [H0 H5]. split; [|split; reflexivity].
  destruct (between_Fin _ _ _ H0 H5) as [q ->].
  unfold tier_table, in_closed, in_half_open, getRatingTier.
  destruct (JS.ge (JS.Fin q) (JS.lit 4.5)) eqn:E1;
    [|destruct (JS.ge (JS.Fin q) (JS.lit 4.0)) eqn:E2;
      [|destruct (JS.ge (JS.Fin q) (JS.lit 3.5)) eqn:E3]];
    repeat split; intros; try discriminate;
    repeat match goal with H : _ /\ _ |- _ => destruct H end;
    to_Qc; try Qc_order; exfalso; Qc_order.
Qed.

Lemma getRatingTier_table_witness :
  in_closed 0 5 (JS.lit 4.6) /\ tier_table (JS.lit 4.6).
Proof.
  assert (H : in_closed 0 5 (JS.lit 4.6)) by (split; reflexivity).
  split; [exact H|]. exact (proj1 (getRatingTier_table (JS.lit 4.6) H)).
Defined.

(** ** The highlight set *)

Lemma includes_elem_of (arr : list string) (x : string) :
  JS.includes arr x = true <-> x ∈ arr.
Proof.
  unfold JS.includes. rewrite existsb_exists, list_elem_of_In. split.
  - intros (y & Hy & Heq). apply String.eqb_eq in Heq. subst. exact Hy.
  - intros Hx. exists x. split; [exact Hx | apply String.eqb_refl].
Qed.

(** No node id is the empty string. *)
Lemma nodeTriple_nonempty (topGenres : list string) (b : BookData) :
  "" ∉ nodeTriple topGenres b.
Proof.
  unfold nodeTriple, genreNodeId, ratingNodeId, movieNodeId.
  rewrite !not_elem_of_cons. repeat split; try discriminate.
  apply not_elem_of_nil.
Qed.

(** The accumulation loop of [sankeyHighlightIds]. *)
Lemma highlight_loop_elem_of (node : string) (topGenres : list string)
    (allBooks : list BookData) (acc : gset number) (i : number) :
  i ∈ foldl
        (fun (result : gset number) b =>
           if JS.includes
                [genreNodeId topGenres b; ratingNodeId b; movieNodeId b] node
           then {[ id b ]} ∪ result
           else result)
        acc allBooks
  <-> i ∈ acc
      \/ exists b, b ∈ allBooks /\ id b = i /\ node ∈ nodeTriple topGenres b.
Proof.
  revert acc. induction allBooks as [|b bs IH]; intros acc.
  - simpl. split; [auto|]. intros [H|(b & Hb & _)]; [exact H|]. inversion Hb.
  - cbn [foldl]. rewrite IH.
    change [genreNodeId topGenres b; ratingNodeId b; movieNodeId b]
      with (nodeTriple topGenres b).
    destruct (JS.includes (nodeTriple topGenres b) node) eqn:E.
    + apply includes_elem_of in E. rewrite elem_of_union, elem_of_singleton.
      split.
      * intros [[->|H]|(b' & Hb' & Hid & Hn)]; eauto.
        -- right. exists b. split; [apply list_elem_of_here | auto].
        -- right. exists b'. split; [apply list_elem_of_further, Hb' | auto].
      * intros [H|(b' & Hb' & Hid & Hn)]; [auto|].
        apply elem_of_cons in Hb' as [->|Hb']; [auto|].
        right. exists b'. auto.
    + split.
      * intros [H|(b' & Hb' & Hid & Hn)]; [auto|].
        right. exists b'. split; [apply list_elem_of_further, Hb' | auto].
      * intros [H|(b' & Hb' & Hid & Hn)]; [auto|].
        apply elem_of_cons in Hb' as [->|Hb'].
        -- apply includes_elem_of in Hn. congruence.
        -- right. exists b'. auto.
Qed.

Lemma sankeyHighlightIds_elem_of (node : string) (allBooks : list BookData)
    (topGenres : list string) (i : number) :
  i ∈ sankeyHighlightIds (Some node) allBooks topGenres
  <-> exists b, b ∈ allBooks /\ id b = i /\ node ∈ nodeTriple topGenres b.
Proof.
  unfold sankeyHighlightIds. destruct node as [|c node];
    cbn [JS.truthy_str negb].
  - split; [intros H; set_solver|].
    intros (b & _ & _ & Hn). exfalso. exact (nodeTriple_nonempty _ _ Hn).
  - rewrite highlight_loop_elem_of. split; [|auto].
    intros [H|H]; [set_solver | exact H].
Qed.

Lemma scatterHighlightIds_brush (s : SelectionState)
    (allBooks : list BookData) (topGenres : list string) :
  brushedIds s <> ∅ -> scatterHighlightIds s allBooks topGenres = brushedIds s.
Proof.
  intros H. unfold scatterHighlightIds. rewrite bool_decide_eq_true_2; [done|].
  destruct (decide (size (brushedIds s) = 0)) as [E|E]; [|lia].
  apply size_empty_iff, leibniz_equiv in E. contradiction.
Qed.

Lemma scatterHighlightIds_no_brush (s : SelectionState)
    (allBooks : list BookData) (topGenres : list string) :
  brushedIds s = ∅ ->
  scatterHighlightIds s allBooks topGenres
  = sankeyHighlightIds (selectedSankeyNode s) allBooks topGenres.
Proof.
  intros H. unfold scatterHighlightIds. rewrite H, size_empty.
  rewrite bool_decide_eq_false_2; [done | lia].
Qed.

(** The three node ids of a record, spelled out: the genre id carries the
    record's own genre when the top genres hold it and Others when they do
    not, the rating id carries the tier of the rating, the movie id one of
    the two status names. *)
Lemma nodeTriple_elem_of (topGenres : list string) (b : BookData)
    (node : string) :
  node ∈ nodeTriple topGenres b
  <-> (node = "g_" ++ genre b /\ genre b ∈ topGenres)
      \/ (node = "g_Others" /\ genre b ∉ topGenres)
      \/ node = "r_" ++ getRatingTier (rating_average b)
      \/ (node = "m_Adapted to Movie" /\ adapted_to_movie b = true)
      \/ (node = "m_Not Adapted" /\ adapted_to_movie b = false).
Proof.
  unfold nodeTriple, genreNodeId, ratingNodeId, movieNodeId.
  rewrite !elem_of_cons, elem_of_nil.
  destruct (JS.includes topGenres (genre b)) eqn:E.
  - apply includes_elem_of in E.
    destruct (adapted_to_movie b); split;
      [ intros [-> | [-> | [-> | []]]]; auto 10
      | intros [[-> _] | [[_ H] | [-> | [[-> _] | [_ H]]]]];
        auto; try contradiction; try discriminate
      | intros [-> | [-> | [-> | []]]]; auto 10
      | intros [[-> _] | [[_ H] | [-> | [[_ H] | [-> _]]]]];
        auto; try contradiction; try discriminate ].
  - assert (Hn : genre b ∉ topGenres).
    { intros H. apply includes_elem_of in H. congruence. }
    destruct (adapted_to_movie b); split;
      [ intros [-> | [-> | [-> | []]]]; auto 10
      | intros [[_ H] | [[-> _] | [-> | [[-> _] | [_ H]]]]];
        auto; try contradiction; try discriminate
      | intros [-> | [-> | [-> | []]]]; auto 10
      | intros [[_ H] | [[-> _] | [-> | [[_ H] | [-> _]]]]];
        auto; try contradiction; try discriminate ].
Qed.

(** C1.  The highlight set is the brush itself whenever the brush is not
    empty.  Otherwise, with a node selected, it is exactly the set of the ids
    of the records one of whose three node ids is that node: the genre id,
    which is g_ followed by the record's genre when the top-genre list holds
    that genre and g_Others when it does not; the rating id, which is r_
    followed by the rating tier; the movie id, which is m_Adapted to Movie
    for an adapted record and m_Not Adapted for any other.  With no brush
    and no node it is empty, and so it is in the initial state. *)
Theorem scatterHighlightIds_cases (s : SelectionState)
    (allBooks : list BookData) (topGenres : list string) :
  (brushedIds s <> ∅ ->
     scatterHighlightIds s allBooks topGenres = brushedIds s)
  /\ (brushedIds s = ∅ ->
      forall node, selectedSankeyNode s = Some node ->
      forall i, i ∈ scatterHighlightIds s allBooks topGenres
                <-> exists b, b ∈ allBooks /\ id b = i
                    /\ ((node = "g_" ++ genre b /\ genre b ∈ topGenres)
                        \/ (node = "g_Others" /\ genre b ∉ topGenres)
                        \/ node = "r_" ++ getRatingTier (rating_average b)
                        \/ (node = "m_Adapted to Movie"
                            /\ adapted_to_movie b = true)
                        \/ (node = "m_Not Adapted"
                            /\ adapted_to_movie b = false)))
  /\ (brushedIds s = ∅ -> selectedSankeyNode s = None ->
      scatterHighlightIds s allBooks topGenres = ∅)
  /\ scatterHighlightIds initialState allBooks topGenres = ∅.
Proof.
  split; [apply scatterHighlightIds_brush|]. split; [|split].
  - intros Hb node Hn i. rewrite scatterHighlightIds_no_brush, Hn by exact Hb.
    rewrite sankeyHighlightIds_elem_of.
    split; intros (b & Hin & Hid & Hnode); exists b;
      (split; [exact Hin|]); (split; [exact Hid|]);
      apply nodeTriple_elem_of; exact Hnode.
  - intros Hb Hn. rewrite scatterHighlightIds_no_brush, Hn by exact Hb.
    reflexivity.
  - rewrite scatterHighlightIds_no_brush by reflexivity. reflexivity.
Qed.

(** A brush of one id is returned as it is.  With no brush and the node
    g_Others selected, B being the only top genre: record 1 (genre A) is
    highlighted, record 2 (genre B) is not.  With the node of the adapted
    records selected: record 1 (adapted) is highlighted, record 2 is not. *)
Lemma scatterHighlightIds_cases_witness :
  scatterHighlightIds (handleBrushChange {[ JS.lit 7 ]} initialState)
    demoBooks ["Fiction"] = {[ JS.lit 7 ]}
  /\ (JS.lit 1 ∈ scatterHighlightIds
                   (handleNodeSelect (Some "g_Others") initialState)
                   threeGenres ["B"])
  /\ (JS.lit 2 ∉ scatterHighlightIds
                   (handleNodeSelect (Some "g_Others") initialState)
                   threeGenres ["B"])
  /\ (JS.lit 1 ∈ scatterHighlightIds
                   (handleNodeSelect (Some "m_Adapted to Movie") initialState)
                   threeGenres ["B"])
  /\ (JS.lit 2 ∉ scatterHighlightIds
                   (handleNodeSelect (Some "m_Adapted to Movie") initialState)
                   threeGenres ["B"]).
Proof.
  split.
  { refine (proj1 (scatterHighlightIds_cases
                     (handleBrushChange {[ JS.lit 7 ]} initialState)
                     demoBooks ["Fiction"]) _).
    simpl. apply non_empty_singleton_L. }
  pose proof (fun node =>
    proj1 (proj2 (scatterHighlightIds_cases
                    (handleNodeSelect (Some node) initialState)
                    threeGenres ["B"])) eq_refl node eq_refl) as H.
  split; [|split; [|split]].
  - apply H. exists (book 1 "A" 4 true).
    split; [apply list_elem_of_here|]. split; [reflexivity|].
    right. left. split; [reflexivity|].
    intros Hin. apply includes_elem_of in Hin. discriminate Hin.
  - intros Hin. apply H in Hin. destruct Hin as (b & Hb & Hid & Hnode).
    unfold threeGenres in Hb. rewrite !elem_of_cons, elem_of_nil in Hb.
    destruct Hb as [-> | [-> | [-> | [-> | []]]]]; try discriminate Hid.
    destruct Hnode as [[Hn _] | [[_ Hn] | [Hn | [[_ Hn] | [Hn _]]]]];
      try discriminate Hn.
    apply Hn, list_elem_of_here.
  - apply H. exists (book 1 "A" 4 true).
    split; [apply list_elem_of_here|]. split; [reflexivity|].
    right. right. right. left. split; reflexivity.
  - intros Hin. apply H in Hin. destruct Hin as (b & Hb & Hid & Hnode).
    unfold threeGenres in Hb. rewrite !elem_of_cons, elem_of_nil in Hb.
    destruct Hb as [-> | [-> | [-> | [-> | []]]]]; try discriminate Hid.
    destruct Hnode as [[Hn _] | [[Hn _] | [Hn | [[_ Hn] | [Hn _]]]]];
      discriminate Hn.
Defined.

(** The brush decides the highlight only when it holds an id.  A state with
    an empty brush and a selected node has no stale id at all, and its
    highlight is the node's: the case of the selected node above. *)
Lemma stale_only_empty_brush_highlights :
  stale_only (handleNodeSelect (Some "g_Fiction") initialState) demoBooks
  /\ ~ highlights_none (handleNodeSelect (Some "g_Fiction") initialState)
         demoBooks ["Fiction"].
Proof.
  split.
  - intros i Hi. simpl in Hi. set_solver.
  - intros H. apply (H (book 1 "Fiction" 4.6 true)).
    + apply list_elem_of_here.
    + rewrite scatterHighlightIds_no_brush by reflexivity.
      cbn [selectedSankeyNode handleNodeSelect].
      apply sankeyHighlightIds_elem_of. exists (book 1 "Fiction" 4.6 true).
      split; [apply list_elem_of_here|]. split; [reflexivity|].
      apply list_elem_of_here.
Qed.

(** C9.  For every state whose brush holds ids, all of them stale (no
    record of the list carries them), the highlight is computed (the
    derivation is total), is the brush itself, and holds no id of any record
    of the list. *)
Theorem stale_brush_highlights_none (s : SelectionState)
    (records : list BookData) (topGenres : list string) :
  brushedIds s <> ∅ ->
  stale_only s records ->
  highlights_none s records topGenres
  /\ scatterHighlightIds s records topGenres = brushedIds s.
Proof.
  intros Hne Hstale. split; [|apply scatterHighlightIds_brush, Hne].
  intros b Hb Hin. rewrite scatterHighlightIds_brush in Hin by exact Hne.
  apply (Hstale _ Hin). exists b. auto.
Qed.

Lemma stale_brush_highlights_none_witness :
  highlights_none (handleBrushChange {[ JS.lit 7 ]} initialState)
    demoBooks ["Fiction"].
Proof.
  refine (proj1 (stale_brush_highlights_none
                   (handleBrushChange {[ JS.lit 7 ]} initialState)
                   demoBooks ["Fiction"] _ _)).
  - simpl. apply non_empty_singleton_L.
  - intros i Hi (b & Hb & Hid). simpl in Hi. apply elem_of_singleton in Hi.
    subst i. unfold demoBooks in Hb.
    apply elem_of_cons in Hb as [->|Hb]; [discriminate Hid|].
    apply elem_of_cons in Hb as [->|Hb]; [discriminate Hid|].
    inversion Hb.
Defined.

(** ** The loader *)

Lemma validBook_true (d : BookData) :
  validBook d = true <->
  JS.gt (pageCount d) (JS.lit 0) = true
  /\ JS.gt (rating_average d) (JS.lit 0) = true
  /\ JS.gt (publicationYear d) (JS.lit 0) = true.
Proof. unfold validBook. rewrite !andb_true_iff. tauto. Qed.

Section LoaderProperties.
Variable toNumber : string -> number.
Variable toUpperCase : string -> string.

Lemma loaded_elem_of (src : CsvSource) (b : BookData) :
  b ∈ loaded (loadBookData toNumber toUpperCase src) <->
  exists rows d, src = CsvRows rows /\ d ∈ rows
                 /\ b = convertRow toNumber toUpperCase d
                 /\ validBook b = true.
Proof.
  destruct src as [rows|error]; simpl.
  - rewrite list_elem_of_In, filter_In, in_map_iff. split.
    + intros [(d & <- & Hd) Hv]. exists rows, d.
      rewrite list_elem_of_In. auto.
    + intros (rows' & d & Heq & Hd & -> & Hv). injection Heq as <-.
      split; [|exact Hv]. exists d. rewrite <- list_elem_of_In. auto.
  - split; [intros H; inversion H|].
    intros (rows & d & Heq & _). discriminate.
Qed.

(** A failed request gives no record and one logged error. *)
Lemma loadBookData_failure (error : string) :
  loaded (loadBookData toNumber toUpperCase (CsvFailure error)) = []
  /\ length (console_error
               (loadBookData toNumber toUpperCase (CsvFailure error))) = 1.
Proof. split; reflexivity. Qed.

(** C7.  Every record the loader returns has a page count, an average
    rating and a publication year greater than zero; equivalently, a record
    that fails one of the three tests is not in the loader's output. *)
Theorem loadBookData_positive (src : CsvSource) :
  (forall b, b ∈ loaded (loadBookData toNumber toUpperCase src) ->
     JS.gt (pageCount b) (JS.lit 0) = true
     /\ JS.gt (rating_average b) (JS.lit 0) = true
     /\ JS.gt (publicationYear b) (JS.lit 0) = true)
  /\ (forall b,
        JS.gt (pageCount b) (JS.lit 0) = false
        \/ JS.gt (rating_average b) (JS.lit 0) = false
        \/ JS.gt (publicationYear b) (JS.lit 0) = false ->
        b ∉ loaded (loadBookData toNumber toUpperCase src)).
Proof.
  assert (Hpos : forall b,
             b ∈ loaded (loadBookData toNumber toUpperCase src) ->
             JS.gt (pageCount b) (JS.lit 0) = true
             /\ JS.gt (rating_average b) (JS.lit 0) = true
             /\ JS.gt (publicationYear b) (JS.lit 0) = true).
  { intros b Hb. apply loaded_elem_of in Hb as (_ & _ & _ & _ & _ & Hv).
    apply validBook_true, Hv. }
  split; [exact Hpos|].
  intros b Hfail Hb. destruct (Hpos b Hb) as (H1 & H2 & H3).
  destruct Hfail as [H|[H|H]]; congruence.
Qed.

End LoaderProperties.

Lemma loadBookData_positive_witness :
  convertRow demoNumber (fun s => s) (demoRow "1" "200" "4" "2000")
    ∈ loaded (loadBookData demoNumber (fun s => s)
                (CsvRows [demoRow "1" "200" "4" "2000";
                          demoRow "2" "0" "4" "1999"]))
  /\ JS.gt (pageCount
              (convertRow demoNumber (fun s => s)
                 (demoRow "1" "200" "4" "2000"))) (JS.lit 0) = true.
Proof.
  assert (H : convertRow demoNumber (fun s => s) (demoRow "1" "200" "4" "2000")
                ∈ loaded (loadBookData demoNumber (fun s => s)
                            (CsvRows [demoRow "1" "200" "4" "2000";
                                      demoRow "2" "0" "4" "1999"]))).
  { apply list_elem_of_In. simpl. left. reflexivity. }
  split; [exact H|].
  exact (proj1 (proj1 (loadBookData_positive demoNumber (fun s => s) _) _ H)).
Defined.

(** The row with a zero page count is dropped. *)
Example loadBookData_drops_zero_pages :
  length (loaded (loadBookData demoNumber (fun s => s)
                    (CsvRows [demoRow "1" "200" "4" "2000";
                              demoRow "2" "0" "4" "1999"]))) = 1.
Proof. reflexivity. Qed.

(** ** The Sankey graph on a genre that holds the key separator *)

(** C5.  The claim asks for one link per distinct (source, target) pair.
    With a top genre named [a|b] and records in two tiers, the two keys
    [g_a|b|r_...] are distinct but split into the same first two parts: the
    graph has the pair (g_a, b) twice. *)
Theorem prepareSankeyData_duplicate_pairs :
  links (prepareSankeyData pipeBooks ["a|b"])
  = [ {| source := "g_a"; target := "b"; value := 1 |};
      {| source := "r_Acclaimed (4.5+)"; target := "m_Not Adapted"; value := 1 |};
      {| source := "g_a"; target := "b"; value := 1 |};
      {| source := "r_Average (< 3.5)"; target := "m_Not Adapted"; value := 1 |} ]
  /\ ~ NoDup (linkPairs (prepareSankeyData pipeBooks ["a|b"])).
Proof.
  split; [reflexivity|].
  intros H. apply NoDup_cons in H as [Hnotin _]. apply Hnotin.
  apply list_elem_of_further, list_elem_of_here.
Qed.

(** C10.  On the same input the tier node [r_Acclaimed (4.5+)] is a node of
    the graph, one record leaves it and none enters it: the link that should
    enter it has target [b]. *)
Theorem prepareSankeyData_tier_not_conserved :
  "r_Acclaimed (4.5+)"
    ∈ List.map node_id (nodes (prepareSankeyData pipeBooks ["a|b"]))
  /\ inflow "r_Acclaimed (4.5+)" (prepareSankeyData pipeBooks ["a|b"]) = 0
  /\ outflow "r_Acclaimed (4.5+)" (prepareSankeyData pipeBooks ["a|b"]) = 1.
Proof.
  split; [|split; reflexivity].
  apply list_elem_of_further, list_elem_of_here.
Qed.

(** ** JavaScript maps *)

Section JSMapFacts.
Context {V : Type}.
Implicit Types (m : JSMap.t V) (k : string) (v : V).

Lemma get_set_eq m k v : JSMap.get (JSMap.set m k v) k = Some v.
Proof.
  induction m as [|[k' v'] m IH]; simpl.
  - rewrite String.eqb_refl. reflexivity.
  - destruct (String.eqb k' k) eqn:E; simpl; rewrite E; auto.
Qed.

Lemma get_set_ne m k k' v :
  k <> k' -> JSMap.get (JSMap.set m k v) k' = JSMap.get m k'.
Proof.
  intros Hne. pose proof (proj2 (String.eqb_neq k k') Hne) as Hb.
  induction m as [|[k0 v0] m IH]; simpl.
  - rewrite Hb. reflexivity.
  - destruct (String.eqb k0 k) eqn:E; simpl.
    + apply String.eqb_eq in E. subst k0. rewrite Hb. reflexivity.
    + rewrite IH. reflexivity.
Qed.

(** A key that is present keeps its place; a new key goes last. *)
Lemma keys_set m k v :
  List.map fst (JSMap.set m k v)
  = match JSMap.get m k with
    | Some _ => List.map fst m
    | None => (List.map fst m ++ [k])%list
    end.
Proof.
  induction m as [|[k' v'] m IH]; simpl; [reflexivity|].
  destruct (String.eqb k' k) eqn:E; simpl; [reflexivity|].
  rewrite IH. destruct (JSMap.get m k); reflexivity.
Qed.

Lemma get_is_Some m k : is_Some (JSMap.get m k) <-> k ∈ List.map fst m.
Proof.
  induction m as [|[k' v'] m IH]; simpl.
  - split; [intros [? H]; discriminate | intros H; inversion H].
  - rewrite elem_of_cons. destruct (String.eqb k' k) eqn:E.
    + apply String.eqb_eq in E. split; eauto.
    + apply String.eqb_neq in E. rewrite IH. split; [auto|].
      intros [H|H]; [congruence | exact H].
Qed.

Lemma get_None m k : JSMap.get m k = None <-> k ∉ List.map fst m.
Proof. rewrite <- get_is_Some, eq_None_not_Some. reflexivity. Qed.

(** With distinct keys, the entries are the graph of [get]. *)
Lemma elem_of_get m k v :
  NoDup (List.map fst m) -> (k, v) ∈ m <-> JSMap.get m k = Some v.
Proof.
  induction m as [|[k' v'] m IH]; simpl; intros Hnd.
  - split; [intros H; inversion H | discriminate].
  - apply NoDup_cons in Hnd as [Hk' Hnd]. rewrite elem_of_cons, (IH Hnd).
    destruct (String.eqb k' k) eqn:E.
    + apply String.eqb_eq in E. subst k'. split.
      * intros [H|H]; [congruence|]. exfalso. apply Hk', get_is_Some. eauto.
      * intros H. left. congruence.
    + apply String.eqb_neq in E. split; [|auto].
      intros [H|H]; [congruence | exact H].
Qed.

Lemma set_keys_NoDup m k v :
  NoDup (List.map fst m) -> NoDup (List.map fst (JSMap.set m k v)).
Proof.
  intros Hnd. rewrite keys_set. destruct (JSMap.get m k) eqn:E; [exact Hnd|].
  apply NoDup_app. repeat split; [exact Hnd | | apply NoDup_singleton].
  intros x Hx Hx'. apply list_elem_of_singleton in Hx'. subst x.
  apply get_None in E. contradiction.
Qed.

End JSMapFacts.

(** ** Sorting *)

Lemma StronglySorted_weaken {A : Type} (R R' : relation A) (l : list A) :
  (forall x y, x ∈ l -> y ∈ l -> R x y -> R' x y) ->
  StronglySorted R l -> StronglySorted R' l.
Proof.
  induction l as [|a l IH]; intros Himp Hs; [constructor|].
  apply StronglySorted_cons in Hs as [Hall Hs]. apply StronglySorted_cons.
  split.
  - apply Forall_forall. intros y Hy.
    apply Himp; [apply list_elem_of_here | apply list_elem_of_further, Hy |].
    exact (proj1 (Forall_forall _ _) Hall y Hy).
  - apply IH; [|exact Hs]. intros x y Hx Hy.
    apply Himp; apply list_elem_of_further; assumption.
Qed.

Lemma StronglySorted_map {A B : Type} (f : A -> B) (R : relation B)
    (l : list A) :
  StronglySorted (fun a b => R (f a) (f b)) l ->
  StronglySorted R (List.map f l).
Proof.
  induction 1 as [|a l _ IH Hall]; simpl; constructor; [exact IH|].
  apply Forall_forall. intros y Hy.
  apply list_elem_of_In, in_map_iff in Hy as (x & <- & Hx).
  apply list_elem_of_In in Hx. revert x Hx. apply Forall_forall, Hall.
Qed.

Lemma StronglySorted_of_map {A B : Type} (f : A -> B) (R : relation B)
    (l : list A) :
  StronglySorted R (List.map f l) ->
  StronglySorted (fun a b => R (f a) (f b)) l.
Proof.
  induction l as [|a l IH]; simpl; intros Hs; [constructor|].
  apply StronglySorted_cons in Hs as [Hall Hs]. constructor; [auto|].
  apply Forall_forall. intros y Hy.
  apply (proj1 (Forall_forall _ _) Hall), list_elem_of_In, in_map.
  apply list_elem_of_In, Hy.
Qed.

Section SortFacts.
Context {A : Type}.
Variable cmp : A -> A -> Z.

Lemma sort_insert_Permutation (x : A) (l : list A) :
  sort_insert cmp x l ≡ₚ x :: l.
Proof.
  induction l as [|y l IH]; simpl; [reflexivity|].
  destruct (cmp x y <=? 0)%Z; [reflexivity|].
  rewrite IH. apply perm_swap.
Qed.

Lemma sort_Permutation (l : list A) : sort cmp l ≡ₚ l.
Proof.
  induction l as [|x l IH]; simpl; [reflexivity|].
  rewrite sort_insert_Permutation, IH. reflexivity.
Qed.

(** The comparator orders by a key, larger keys first. *)
Variable key : A -> Z.
Hypothesis cmp_key : forall a b, cmp a b = (key b - key a)%Z.

(** The order in which the elements stood before the sort. *)
Variable R : relation A.

Lemma sort_insert_stable (x : A) (s : list A) :
  StronglySorted (stable_desc key R) s -> Forall (R x) s ->
  StronglySorted (stable_desc key R) (sort_insert cmp x s).
Proof.
  induction s as [|y s IH]; simpl; intros Hs Hx.
  - repeat constructor.
  - apply StronglySorted_cons in Hs as [Hy Hs].
    apply Forall_cons in Hx as [Hxy Hx].
    destruct (cmp x y <=? 0)%Z eqn:E.
    + apply Z.leb_le in E. rewrite cmp_key in E.
      apply StronglySorted_cons. split.
      * apply Forall_cons. split.
        -- unfold stable_desc. destruct (Z.eq_dec (key y) (key x)); [auto|].
           left. lia.
        -- apply Forall_forall. intros z Hz.
           pose proof (proj1 (Forall_forall _ _) Hy z Hz) as Hyz.
           pose proof (proj1 (Forall_forall _ _) Hx z Hz) as Hxz.
           clear Hy Hx. rename Hyz into Hy. unfold stable_desc in *.
           destruct (Z.eq_dec (key z) (key x)); [auto|]. left.
           destruct Hy as [Hy|[Hy _]]; lia.
      * apply StronglySorted_cons. auto.
    + apply Z.leb_gt in E. rewrite cmp_key in E.
      apply StronglySorted_cons. split; [|auto].
      rewrite sort_insert_Permutation. apply Forall_cons. split; [|exact Hy].
      left. lia.
Qed.

(** Stability: the result is ordered by key, and elements of equal key keep
    the order they had. *)
Lemma sort_stable (l : list A) :
  StronglySorted R l -> StronglySorted (stable_desc key R) (sort cmp l).
Proof.
  induction l as [|x l IH]; simpl; intros Hs; [constructor|].
  apply StronglySorted_cons in Hs as [Hx Hs].
  apply sort_insert_stable; [auto|]. rewrite sort_Permutation. exact Hx.
Qed.

End SortFacts.

Lemma slice0_prefix {A : Type} (n : Z) (arr : list A) :
  slice0 n arr `prefix_of` arr.
Proof. unfold slice0. destruct (n <? 0)%Z; apply prefix_take. Qed.

Lemma slice0_length {A : Type} (n : Z) (arr : list A) :
  (0 <= n)%Z -> (Z.of_nat (length (slice0 n arr)) <= n)%Z.
Proof.
  intros Hn. unfold slice0. destruct (n <? 0)%Z eqn:E.
  - apply Z.ltb_lt in E. lia.
  - rewrite length_take. lia.
Qed.

(** A negative end keeps all but the last [-n] elements. *)
Lemma slice0_negative {A : Type} (n : Z) (arr : list A) :
  (n < 0)%Z ->
  length (slice0 n arr) = Z.to_nat (Z.of_nat (length arr) + n).
Proof.
  intros Hn. unfold slice0. apply Z.ltb_lt in Hn. rewrite Hn, length_take.
  lia.
Qed.

(** ** Genre counts and the top genres *)

Lemma freq_snoc (g : string) (data : list BookData) (b : BookData) :
  freq g (data ++ [b])%list
  = freq g data + (if String.eqb (genre b) g then 1 else 0).
Proof.
  unfold freq. rewrite List.filter_app, length_app. simpl.
  destruct (String.eqb (genre b) g); reflexivity.
Qed.

Lemma freq_pos (g : string) (data : list BookData) :
  0 < freq g data <-> exists b, b ∈ data /\ genre b = g.
Proof.
  unfold freq. induction data as [|a data IH]; simpl.
  - split; [lia|]. intros (b & Hb & _). inversion Hb.
  - destruct (String.eqb (genre a) g) eqn:E; simpl.
    + apply String.eqb_eq in E. split; [|lia]. intros _. exists a.
      split; [apply list_elem_of_here | exact E].
    + apply String.eqb_neq in E. rewrite IH. split.
      * intros (b & Hb & Hg). exists b. split; [|exact Hg].
        apply list_elem_of_further, Hb.
      * intros (b & Hb & Hg). apply elem_of_cons in Hb as [->|Hb];
          [contradiction|]. exists b. auto.
Qed.

Lemma firstIndex_lt (g : string) (data : list BookData) :
  firstIndex g data < length data <-> 0 < freq g data.
Proof.
  unfold freq. induction data as [|a data IH]; simpl; [lia|].
  destruct (String.eqb (genre a) g); simpl; lia.
Qed.

Lemma firstIndex_snoc_seen (g : string) (data : list BookData) (b : BookData) :
  0 < freq g data -> firstIndex g (data ++ [b])%list = firstIndex g data.
Proof.
  unfold freq. induction data as [|a data IH]; simpl; [lia|].
  destruct (String.eqb (genre a) g); simpl; [reflexivity|].
  intros H. rewrite IH by exact H. reflexivity.
Qed.

Lemma firstIndex_snoc_new (g : string) (data : list BookData) (b : BookData) :
  freq g data = 0 -> genre b = g -> firstIndex g (data ++ [b])%list = length data.
Proof.
  unfold freq. intros Hz Hb. induction data as [|a data IH]; simpl in *.
  - rewrite Hb, String.eqb_refl. reflexivity.
  - destruct (String.eqb (genre a) g); simpl in *; [discriminate|].
    rewrite IH by exact Hz. reflexivity.
Qed.

Lemma truthy_str_true (s : string) : JS.truthy_str s = true <-> s <> "".
Proof. destruct s; simpl; split; congruence. Qed.

Section GenreRanking.
Variable fadd : number -> number -> number.
Variable fdiv : number -> number -> number.

Lemma genreMapOf_snoc (data : list BookData) (b : BookData) :
  genreMapOf fadd (data ++ [b])%list = genreStep fadd (genreMapOf fadd data) b.
Proof. unfold genreMapOf. apply foldl_snoc. Qed.

(** Each key of the map counts the records of its genre. *)
Lemma genreMapOf_counted (data : list BookData) (g : string) :
  option_map gs_count (JSMap.get (genreMapOf fadd data) g)
  = if JS.truthy_str g && (0 <? freq g data)%nat
    then Some (freq g data) else None.
Proof.
  revert g. induction data as [|b data IH] using rev_ind; intros g.
  - simpl. rewrite andb_false_r. reflexivity.
  - rewrite genreMapOf_snoc, freq_snoc. unfold genreStep.
    destruct (JS.truthy_str (genre b)) eqn:Eb; simpl.
    + destruct (String.eqb (genre b) g) eqn:Eg.
      * apply String.eqb_eq in Eg. subst g. rewrite get_set_eq, Eb. simpl.
        specialize (IH (genre b)). rewrite Eb in IH. simpl in IH.
        replace (0 <? freq (genre b) data + 1)%nat with true
          by (symmetry; apply Nat.ltb_lt; lia).
        destruct (JSMap.get (genreMapOf fadd data) (genre b)) as [st|]; simpl in *.
        -- destruct (0 <? freq (genre b) data)%nat; [|discriminate].
           injection IH as ->. reflexivity.
        -- destruct (0 <? freq (genre b) data)%nat eqn:E0; [discriminate|].
           apply Nat.ltb_ge in E0. f_equal. lia.
      * apply String.eqb_neq in Eg. rewrite get_set_ne by exact Eg.
        rewrite IH, Nat.add_0_r. reflexivity.
    + rewrite IH. destruct g as [|c g]; [reflexivity|].
      destruct (genre b); [|discriminate]. simpl. rewrite Nat.add_0_r.
      reflexivity.
Qed.

Lemma genreMapOf_keys (data : list BookData) (g : string) :
  g ∈ List.map fst (genreMapOf fadd data) <-> g <> "" /\ 0 < freq g data.
Proof.
  rewrite <- get_is_Some. pose proof (genreMapOf_counted data g) as H.
  rewrite <- truthy_str_true, <- Nat.ltb_lt, <- andb_true_iff.
  destruct (JSMap.get (genreMapOf fadd data) g) as [st|]; simpl in H.
  - destruct (JS.truthy_str g && (0 <? freq g data)%nat); [|discriminate].
    split; eauto.
  - destruct (JS.truthy_str g && (0 <? freq g data)%nat); [discriminate|].
    split; [intros [? ?]|]; discriminate.
Qed.

Lemma genreMapOf_NoDup (data : list BookData) :
  NoDup (List.map fst (genreMapOf fadd data)).
Proof.
  induction data as [|b data IH] using rev_ind; [constructor|].
  rewrite genreMapOf_snoc. unfold genreStep.
  destruct (JS.truthy_str (genre b)); simpl; [|exact IH].
  apply set_keys_NoDup, IH.
Qed.

(** The keys stand in the order in which the genres were first met. *)
Lemma genreMapOf_order (data : list BookData) :
  StronglySorted (seen_before data) (List.map fst (genreMapOf fadd data)).
Proof.
  induction data as [|b data IH] using rev_ind; [constructor|].
  assert (Hold : StronglySorted (seen_before (data ++ [b])%list)
                   (List.map fst (genreMapOf fadd data))).
  { revert IH. apply StronglySorted_weaken. intros x y Hx Hy. unfold seen_before.
    apply genreMapOf_keys in Hx as [_ Hx]. apply genreMapOf_keys in Hy as [_ Hy].
    rewrite !firstIndex_snoc_seen by assumption. auto. }
  rewrite genreMapOf_snoc. unfold genreStep.
  destruct (JS.truthy_str (genre b)) eqn:Eb; simpl; [|exact Hold].
  rewrite keys_set.
  destruct (JSMap.get (genreMapOf fadd data) (genre b)) eqn:Eget; [exact Hold|].
  apply StronglySorted_app. split; [|split; [exact Hold | repeat constructor]].
  intros x y Hx Hy. apply list_elem_of_singleton in Hy. subst y.
  unfold seen_before. apply genreMapOf_keys in Hx as [_ Hx].
  rewrite firstIndex_snoc_seen by exact Hx.
  rewrite firstIndex_snoc_new; [apply firstIndex_lt, Hx | | reflexivity].
  apply get_None in Eget. rewrite genreMapOf_keys in Eget.
  apply truthy_str_true in Eb.
  destruct (freq (genre b) data) eqn:E; [reflexivity|].
  exfalso. apply Eget. split; [exact Eb | lia].
Qed.

Lemma aggregateByGenre_genres (data : list BookData) :
  List.map gd_genre (aggregateByGenre fadd fdiv data) = List.map fst (genreMapOf fadd data).
Proof.
  unfold aggregateByGenre, JSMap.entries. rewrite List.map_map.
  apply List.map_ext. intros [g st]. reflexivity.
Qed.

Lemma aggregateByGenre_count (data : list BookData) (d : GenreData) :
  d ∈ aggregateByGenre fadd fdiv data -> count d = freq (gd_genre d) data.
Proof.
  unfold aggregateByGenre, JSMap.entries. intros Hd.
  apply list_elem_of_In, in_map_iff in Hd as ([g st] & <- & Hin). simpl.
  apply list_elem_of_In, elem_of_get in Hin; [|apply genreMapOf_NoDup].
  pose proof (genreMapOf_counted data g) as H. rewrite Hin in H. simpl in H.
  destruct (JS.truthy_str g && (0 <? freq g data)%nat); congruence.
Qed.

End GenreRanking.

Lemma slice0_sublist {A : Type} (n : Z) (arr : list A) :
  slice0 n arr `sublist_of` arr.
Proof. unfold slice0. destruct (n <? 0)%Z; apply sublist_take. Qed.

Lemma slice0_map {A B : Type} (f : A -> B) (n : Z) (arr : list A) :
  List.map f (slice0 n arr) = slice0 n (List.map f arr).
Proof.
  unfold slice0. rewrite length_map.
  destruct (n <? 0)%Z; symmetry; apply firstn_map.
Qed.

Lemma ranks_before_desc (data : list BookData) (g h : string) :
  ranks_before data g h -> freq h data <= freq g data.
Proof. unfold ranks_before. lia. Qed.

Lemma ranks_before_asym (data : list BookData) (g h : string) :
  ranks_before data g h -> ranks_before data h g -> False.
Proof. unfold ranks_before. lia. Qed.

Section TopGenres.
Variable fadd : number -> number -> number.
Variable fdiv : number -> number -> number.

Lemma getTopGenres_slice (data : list BookData) (n : Z) :
  getTopGenres fadd fdiv data n = slice0 n (genreRanking fadd fdiv data).
Proof. unfold getTopGenres, genreRanking. apply slice0_map. Qed.

Lemma genreRanking_Permutation (data : list BookData) :
  genreRanking fadd fdiv data ≡ₚ List.map fst (genreMapOf fadd data).
Proof.
  unfold genreRanking. rewrite <- (aggregateByGenre_genres fadd fdiv).
  apply Permutation_map, sort_Permutation.
Qed.

Lemma genreRanking_elem_of (data : list BookData) (g : string) :
  g ∈ genreRanking fadd fdiv data <-> is_genre_of data g.
Proof.
  rewrite genreRanking_Permutation, genreMapOf_keys, freq_pos. reflexivity.
Qed.

Lemma genreRanking_NoDup (data : list BookData) :
  NoDup (genreRanking fadd fdiv data).
Proof. rewrite genreRanking_Permutation. apply genreMapOf_NoDup. Qed.

(** The ranking is by descending count, ties in order of first appearance. *)
Lemma genreRanking_sorted (data : list BookData) :
  StronglySorted (ranks_before data) (genreRanking fadd fdiv data).
Proof.
  unfold genreRanking. apply StronglySorted_map.
  pose proof (genreMapOf_order fadd data) as Hord.
  rewrite <- (aggregateByGenre_genres fadd fdiv) in Hord.
  apply StronglySorted_of_map in Hord.
  apply (sort_stable byCountDesc (fun d => Z.of_nat (count d))) in Hord;
    [|reflexivity].
  revert Hord. apply StronglySorted_weaken. intros x y Hx Hy.
  rewrite sort_Permutation in Hx, Hy.
  unfold stable_desc, ranks_before, seen_before.
  rewrite <- (aggregateByGenre_count fadd fdiv data x Hx).
  rewrite <- (aggregateByGenre_count fadd fdiv data y Hy). lia.
Qed.

End TopGenres.

(** The ranking, hence the result, does not depend on how the rating and
    page totals are rounded. *)
Lemma genreRanking_unique (fadd fdiv fadd' fdiv' : number -> number -> number)
    (data : list BookData) :
  genreRanking fadd fdiv data = genreRanking fadd' fdiv' data.
Proof.
  apply (StronglySorted_unique_strong (ranks_before data)).
  - intros g h _ _ H1 H2. exfalso. exact (ranks_before_asym _ _ _ H1 H2).
  - apply genreRanking_sorted.
  - apply genreRanking_sorted.
  - apply NoDup_Permutation; try apply genreRanking_NoDup.
    intros g. rewrite !genreRanking_elem_of. reflexivity.
Qed.

(** Outside the counts: with a negative [n], [slice(0, n)] drops the last
    [-n] genres only, so that two of three genres are returned for
    [n = -1].  No caller passes such an [n]. *)
Lemma getTopGenres_negative_n :
  getTopGenres exactAdd exactDiv threeGenres (-1) = ["B"; "A"]
  /\ ~ top_genres_claim threeGenres (-1)
         (getTopGenres exactAdd exactDiv threeGenres (-1)).
Proof.
  split; [reflexivity|]. intros [Hlen _]. simpl in Hlen. lia.
Qed.

(** C8.  For every record list and every count [n] (that is [n >= 0]), the
    result has at most [n] names and is a subsequence (a prefix) of the
    distinct non-empty genres sorted by descending frequency; the result is a
    function of the records and [n] alone, ties being broken by first
    appearance. *)
Theorem getTopGenres_top (fadd fdiv : number -> number -> number)
    (data : list BookData) (n : Z) :
  (0 <= n)%Z ->
  top_genres_claim data n (getTopGenres fadd fdiv data n)
  /\ (forall fadd' fdiv',
        getTopGenres fadd' fdiv' data n = getTopGenres fadd fdiv data n)
  /\ exists ranking,
       getTopGenres fadd fdiv data n `prefix_of` ranking
       /\ (forall g, g ∈ ranking <-> is_genre_of data g)
       /\ StronglySorted (ranks_before data) ranking.
Proof.
  intros Hn. rewrite getTopGenres_slice. split; [|split].
  - split; [apply slice0_length, Hn|].
    exists (genreRanking fadd fdiv data). split; [apply slice0_sublist|].
    split; [apply genreRanking_NoDup|]. split; [apply genreRanking_elem_of|].
    generalize (genreRanking_sorted fadd fdiv data).
    apply StronglySorted_weaken. intros g h _ _. apply ranks_before_desc.
  - intros fadd' fdiv'. rewrite getTopGenres_slice. f_equal.
    apply genreRanking_unique.
  - exists (genreRanking fadd fdiv data). split; [apply slice0_prefix|].
    split; [apply genreRanking_elem_of | apply genreRanking_sorted].
Qed.

Lemma getTopGenres_top_witness :
  (0 <= 2)%Z
  /\ top_genres_claim threeGenres 2 (getTopGenres exactAdd exactDiv threeGenres 2).
Proof.
  assert (H : (0 <= 2)%Z) by lia.
  split; [exact H|].
  exact (proj1 (getTopGenres_top exactAdd exactDiv threeGenres 2 H)).
Defined.

(** Ties keep the order of first appearance: A and C have one record each. *)
Example getTopGenres_tie :
  getTopGenres exactAdd exactDiv threeGenres 3 = ["B"; "A"; "C"].
Proof. reflexivity. Qed.

(** ** The Sankey graph in general *)

Lemma bump_cons (k' : string) (v' : nat) (m : JSMap.t nat) (k : string) :
  bump ((k', v') :: m) k
  = if String.eqb k' k then (k', v' + 1) :: m else (k', v') :: bump m k.
Proof. unfold bump. simpl. destruct (String.eqb k' k); reflexivity. Qed.

Lemma weight_bump (p : string -> bool) (m : JSMap.t nat) (k : string) :
  weight p (bump m k) = weight p m + (if p k then 1 else 0).
Proof.
  unfold weight. induction m as [|[k' v'] m IH].
  - unfold bump. simpl. destruct (p k); simpl; lia.
  - rewrite bump_cons. destruct (String.eqb k' k) eqn:E; simpl.
    + apply String.eqb_eq in E. subst k'. destruct (p k); simpl; lia.
    + destruct (p k'); simpl; rewrite IH; lia.
Qed.

Lemma bump_keys_NoDup (m : JSMap.t nat) (k : string) :
  NoDup (List.map fst m) -> NoDup (List.map fst (bump m k)).
Proof. apply set_keys_NoDup. Qed.

Lemma bump_keys (m : JSMap.t nat) (k x : string) :
  x ∈ List.map fst (bump m k) <-> x = k \/ x ∈ List.map fst m.
Proof.
  unfold bump. rewrite keys_set. destruct (JSMap.get m k) eqn:E.
  - split; [auto|]. intros [->|H]; [|exact H]. apply get_is_Some. eauto.
  - rewrite elem_of_app, list_elem_of_singleton. tauto.
Qed.

Lemma sankeyStep_links (topGenreList : list string)
    (acc : JSMap.t string * JSMap.t nat) (b : BookData) :
  snd (sankeyStep topGenreList acc b) = linkStep topGenreList (snd acc) b.
Proof.
  destruct acc as [nodesMap lm]. unfold sankeyStep, linkStep.
  rewrite <- negb_andb. fold (flows b). destruct (flows b); reflexivity.
Qed.

Lemma linksMapOf_fold (data : list BookData) (topGenreList : list string) :
  linksMapOf data topGenreList
  = foldl (linkStep topGenreList) JSMap.empty data.
Proof.
  unfold linksMapOf.
  change (@JSMap.empty nat)
    with (snd (@JSMap.empty string, @JSMap.empty nat)) at 2.
  generalize (@JSMap.empty string, @JSMap.empty nat).
  induction data as [|b data IH]; intros acc; [reflexivity|].
  cbn [foldl]. rewrite IH, sankeyStep_links. reflexivity.
Qed.

Lemma prepareSankeyData_links (data : list BookData)
    (topGenreList : list string) :
  links (prepareSankeyData data topGenreList)
  = List.map linkOfEntry (linksMapOf data topGenreList).
Proof.
  unfold prepareSankeyData, linksMapOf, JSMap.entries.
  destruct (foldl (sankeyStep topGenreList) (JSMap.empty, JSMap.empty) data).
  reflexivity.
Qed.

(** A sum over links selected by source and target is a sum over keys. *)
Lemma flow_weight (q : string -> string -> bool) (data : list BookData)
    (topGenreList : list string) :
  flow (fun l => q (source l) (target l)) (prepareSankeyData data topGenreList)
  = weight (fun k => q (sourceOfKey k) (targetOfKey k))
           (linksMapOf data topGenreList).
Proof.
  unfold flow, weight. rewrite prepareSankeyData_links.
  induction (linksMapOf data topGenreList) as [|[k v] m IH]; [reflexivity|].
  simpl. fold (sourceOfKey k) (targetOfKey k).
  destruct (q (sourceOfKey k) (targetOfKey k)); simpl; rewrite IH; reflexivity.
Qed.

(** Each flowing record adds one to each of its two keys. *)
Lemma weight_linksMapOf (p : string -> bool) (data : list BookData)
    (topGenreList : list string) :
  weight p (linksMapOf data topGenreList)
  = length (List.filter (fun b => flows b && p (link1Key topGenreList b)) data)
    + length (List.filter (fun b => flows b && p (link2Key b)) data).
Proof.
  rewrite linksMapOf_fold.
  induction data as [|b data IH] using rev_ind; [reflexivity|].
  rewrite foldl_snoc, !List.filter_app, !length_app. unfold linkStep at 1.
  cbn [List.filter]. destruct (flows b); cbn [andb].
  - rewrite !weight_bump, IH.
    destruct (p (link1Key topGenreList b)), (p (link2Key b)); simpl; lia.
  - rewrite IH. simpl. lia.
Qed.

Lemma linksMapOf_NoDup (data : list BookData) (topGenreList : list string) :
  NoDup (List.map fst (linksMapOf data topGenreList)).
Proof.
  rewrite linksMapOf_fold.
  induction data as [|b data IH] using rev_ind; [constructor|].
  rewrite foldl_snoc. unfold linkStep at 1.
  destruct (flows b); [|exact IH]. apply bump_keys_NoDup, bump_keys_NoDup, IH.
Qed.

Lemma linksMapOf_keys (data : list BookData) (topGenreList : list string)
    (k : string) :
  k ∈ List.map fst (linksMapOf data topGenreList) ->
  exists b, b ∈ data /\ flows b = true
            /\ (k = link1Key topGenreList b \/ k = link2Key b).
Proof.
  rewrite linksMapOf_fold.
  induction data as [|b data IH] using rev_ind; [intros H; inversion H|].
  rewrite foldl_snoc. unfold linkStep at 1.
  assert (Hold : k ∈ List.map fst (foldl (linkStep topGenreList) JSMap.empty data)
                 -> exists b0, b0 ∈ (data ++ [b])%list /\ flows b0 = true
                      /\ (k = link1Key topGenreList b0 \/ k = link2Key b0)).
  { intros H. destruct (IH H) as (b0 & Hb0 & Hrest). exists b0.
    split; [apply elem_of_app; auto | exact Hrest]. }
  destruct (flows b) eqn:Eb; [|exact Hold].
  rewrite !bump_keys. intros [->|[->|H]]; [| |auto];
    exists b; (split; [apply elem_of_app; right; apply list_elem_of_here|]);
    auto.
Qed.

(** *** Splitting a key *)

Lemma split_cons (sep : ascii) (s : string) :
  exists part parts, split sep s = part :: parts.
Proof.
  destruct s as [|c s]; simpl; [eauto|].
  destruct (Ascii.eqb c sep); [eauto|]. destruct (split sep s); eauto.
Qed.

Lemma sourceOfKey_String (c : ascii) (s : string) :
  Ascii.eqb c "|" = false -> sourceOfKey (String c s) = String c (sourceOfKey s).
Proof.
  intros Hc. unfold sourceOfKey. simpl. rewrite Hc.
  destruct (split_cons "|" s) as (part & parts & ->). reflexivity.
Qed.

Lemma pipe_free_String (c : ascii) (s : string) :
  Ascii.eqb c "|" = false -> pipe_free s -> pipe_free (String c s).
Proof. unfold pipe_free. simpl. intros -> ->. reflexivity. Qed.

Lemma pipe_free_inv (c : ascii) (s : string) :
  pipe_free (String c s) -> Ascii.eqb c "|" = false /\ pipe_free s.
Proof.
  unfold pipe_free. simpl. destruct (Ascii.eqb c "|"); [discriminate|].
  destruct (split_cons "|" s) as (part & parts & E). rewrite E.
  intros H. injection H as -> ->. auto.
Qed.

(** A key made of two parts without separator splits into these parts. *)
Lemma split_join (x y : string) :
  pipe_free x -> split "|" (x ++ "|" ++ y) = x :: split "|" y.
Proof.
  induction x as [|c x IH]; intros Hx; [reflexivity|].
  apply pipe_free_inv in Hx as [Hc Hx]. simpl. rewrite Hc, (IH Hx).
  reflexivity.
Qed.

Lemma key_parts (x y : string) :
  pipe_free x -> pipe_free y ->
  sourceOfKey (x ++ "|" ++ y) = x /\ targetOfKey (x ++ "|" ++ y) = y.
Proof.
  intros Hx Hy. unfold sourceOfKey, targetOfKey. rewrite (split_join x y Hx), Hy.
  split; reflexivity.
Qed.

Lemma getRatingTier_cases (r : number) :
  getRatingTier r = "Acclaimed (4.5+)"
  \/ getRatingTier r = "Highly Rated (4.0-4.5)"
  \/ getRatingTier r = "Well Rated (3.5-4.0)"
  \/ getRatingTier r = "Average (< 3.5)".
Proof.
  unfold getRatingTier.
  destruct (JS.ge r (JS.lit 4.5)); [auto|].
  destruct (JS.ge r (JS.lit 4.0)); [auto|].
  destruct (JS.ge r (JS.lit 3.5)); auto.
Qed.

Lemma ratingId_pipe_free (r : number) : pipe_free ("r_" ++ getRatingTier r).
Proof.
  destruct (getRatingTier_cases r) as [-> | [-> | [-> | ->]]]; reflexivity.
Qed.

Lemma movieId_pipe_free (b : BookData) : pipe_free ("m_" ++ movieStatusOf b).
Proof. unfold movieStatusOf. destruct (adapted_to_movie b); reflexivity. Qed.

Lemma genreId_pipe_free (topGenreList : list string) (b : BookData) :
  (forall g, g ∈ topGenreList -> pipe_free g) ->
  pipe_free ("g_" ++ processedGenreOf topGenreList b).
Proof.
  intros Htop. repeat (apply pipe_free_String; [reflexivity|]).
  unfold processedGenreOf.
  destruct (JS.includes topGenreList (genre b)) eqn:E; [|reflexivity].
  apply Htop, includes_elem_of, E.
Qed.

(** *** What holds of every graph *)

Lemma flows_true (b : BookData) :
  flows b = true <->
  genre b <> "" /\ JS.truthy (rating_average b) = true.
Proof. unfold flows. rewrite andb_true_iff, truthy_str_true. reflexivity. Qed.

(** A record without genre, or without a rating, leaves both maps as they
    are: it is not counted under Others. *)
Lemma sankeyStep_skips (topGenreList : list string)
    (acc : JSMap.t string * JSMap.t nat) (b : BookData) :
  flows b = false -> sankeyStep topGenreList acc b = acc.
Proof.
  intros H. destruct acc as [nodesMap lm]. unfold sankeyStep.
  rewrite <- negb_andb. fold (flows b). rewrite H. reflexivity.
Qed.

Lemma prepareSankeyData_skips (data : list BookData)
    (topGenreList : list string) :
  prepareSankeyData (List.filter flows data) topGenreList
  = prepareSankeyData data topGenreList.
Proof.
  unfold prepareSankeyData. f_equal.
  generalize (@JSMap.empty string, @JSMap.empty nat).
  induction data as [|b data IH]; intros acc; [reflexivity|].
  simpl. destruct (flows b) eqn:E; simpl.
  - apply IH.
  - rewrite (sankeyStep_skips _ _ _ E). apply IH.
Qed.

Lemma link1Key_head (topGenreList : list string) (b : BookData) :
  link1Key topGenreList b
  = String "g" (String "_"
      (processedGenreOf topGenreList b ++ "|"
       ++ ("r_" ++ getRatingTier (rating_average b)))).
Proof. reflexivity. Qed.

Lemma link2Key_head (b : BookData) :
  link2Key b
  = String "r" (String "_"
      (getRatingTier (rating_average b) ++ "|" ++ ("m_" ++ movieStatusOf b))).
Proof. reflexivity. Qed.

(** The genre layer carries every flowing record once. *)
Lemma prepareSankeyData_genre_flow (data : list BookData)
    (topGenreList : list string) :
  flow (fun l => startsWith "g_" (source l))
       (prepareSankeyData data topGenreList)
  = length (List.filter flows data).
Proof.
  rewrite (flow_weight (fun s _ => startsWith "g_" s)), weight_linksMapOf.
  rewrite (List.filter_ext_in
             (fun b => flows b && startsWith "g_" (sourceOfKey (link2Key b)))
             (fun _ => false)).
  2:{ intros b _. rewrite link2Key_head.
      rewrite !sourceOfKey_String by reflexivity.
      destruct (flows b); reflexivity. }
  rewrite (List.filter_ext_in
             (fun b => flows b
                       && startsWith "g_" (sourceOfKey (link1Key topGenreList b)))
             flows).
  2:{ intros b _. rewrite link1Key_head.
      rewrite !sourceOfKey_String by reflexivity.
      destruct (flows b); reflexivity. }
  assert (H : forall l : list BookData, List.filter (fun _ => false) l = [])
    by (induction l; auto).
  rewrite H. simpl. lia.
Qed.

(** *** What holds when no top genre holds the separator *)

Section PipeFree.
Variable topGenreList : list string.
Hypothesis top_pipe_free : forall g, g ∈ topGenreList -> pipe_free g.

Lemma link1Key_parts (b : BookData) :
  sourceOfKey (link1Key topGenreList b) = "g_" ++ processedGenreOf topGenreList b
  /\ targetOfKey (link1Key topGenreList b)
     = "r_" ++ getRatingTier (rating_average b).
Proof.
  apply key_parts;
    [apply genreId_pipe_free, top_pipe_free | apply ratingId_pipe_free].
Qed.

Lemma link2Key_parts (b : BookData) :
  sourceOfKey (link2Key b) = "r_" ++ getRatingTier (rating_average b)
  /\ targetOfKey (link2Key b) = "m_" ++ movieStatusOf b.
Proof. apply key_parts; [apply ratingId_pipe_free | apply movieId_pipe_free]. Qed.

(** Then the links are one per (source, target) pair. *)
Lemma prepareSankeyData_pairs_NoDup (data : list BookData) :
  NoDup (linkPairs (prepareSankeyData data topGenreList)).
Proof.
  unfold linkPairs. rewrite prepareSankeyData_links, List.map_map.
  pose proof (linksMapOf_NoDup data topGenreList) as Hnd.
  pose proof (linksMapOf_keys data topGenreList) as Hkeys.
  induction (linksMapOf data topGenreList) as [|[k v] m IH]; [constructor|].
  simpl in *. apply NoDup_cons in Hnd as [Hk Hnd]. apply NoDup_cons. split.
  - intros Hin. apply Hk.
    apply list_elem_of_In, in_map_iff in Hin as ([k' v'] & Heq & Hin').
    simpl in Heq. fold (sourceOfKey k') (targetOfKey k') in Heq.
    fold (sourceOfKey k) (targetOfKey k) in Heq.
    assert (k' = k) as ->.
    { assert (Hk'in : k' ∈ k :: List.map fst m).
      { apply list_elem_of_further, list_elem_of_In, in_map_iff.
        exists (k', v'). auto. }
      destruct (Hkeys k' Hk'in) as (b' & _ & _ & Hb').
      destruct (Hkeys k (list_elem_of_here _ _)) as (b & _ & _ & Hb).
      injection Heq as Hs Ht.
      destruct (link1Key_parts b) as [S1 T1], (link2Key_parts b) as [S2 T2].
      destruct (link1Key_parts b') as [S1' T1'], (link2Key_parts b') as [S2' T2'].
      destruct Hb as [-> | ->], Hb' as [-> | ->];
        rewrite ?S1, ?S2, ?S1', ?S2', ?T1, ?T2, ?T1', ?T2' in Hs, Ht;
        unfold link1Key, link2Key; congruence. }
    apply list_elem_of_In, in_map_iff. exists (k, v'). auto.
  - apply IH; [exact Hnd|]. intros k' Hk'. apply Hkeys, list_elem_of_further, Hk'.
Qed.

Lemma eqb_r_node (s node : string) :
  startsWith "r_" node = true -> startsWith "r_" s = false ->
  String.eqb s node = false.
Proof. intros Hnode Hs. apply String.eqb_neq. intros <-. congruence. Qed.

(** And every tier node passes on what it receives. *)
Lemma prepareSankeyData_tier_conserved (data : list BookData) (node : string) :
  startsWith "r_" node = true ->
  inflow node (prepareSankeyData data topGenreList)
  = outflow node (prepareSankeyData data topGenreList).
Proof.
  intros Hnode. unfold inflow, outflow.
  rewrite (flow_weight (fun _ t => String.eqb t node)).
  rewrite (flow_weight (fun s _ => String.eqb s node)).
  rewrite !weight_linksMapOf.
  assert (H : forall l : list BookData, List.filter (fun _ => false) l = [])
    by (induction l; auto).
  rewrite (List.filter_ext_in
             (fun b => flows b && String.eqb (targetOfKey (link2Key b)) node)
             (fun _ => false)).
  2:{ intros b _. rewrite (proj2 (link2Key_parts b)).
      rewrite (eqb_r_node ("m_" ++ movieStatusOf b) node Hnode eq_refl).
      apply andb_false_r. }
  rewrite (List.filter_ext_in
             (fun b => flows b
                       && String.eqb (sourceOfKey (link1Key topGenreList b)) node)
             (fun _ => false)).
  2:{ intros b _. rewrite (proj1 (link1Key_parts b)).
      rewrite (eqb_r_node ("g_" ++ processedGenreOf topGenreList b) node
                 Hnode eq_refl).
      apply andb_false_r. }
  rewrite (List.filter_ext_in
             (fun b => flows b
                       && String.eqb (targetOfKey (link1Key topGenreList b)) node)
             (fun b => flows b && String.eqb (sourceOfKey (link2Key b)) node)).
  2:{ intros b _. rewrite (proj2 (link1Key_parts b)), (proj1 (link2Key_parts b)).
      reflexivity. }
  rewrite !H. simpl. lia.
Qed.

End PipeFree.

(** ** The scenarios of the design document *)

(** Two Fiction records, one acclaimed and adapted, one average and not:
    five nodes and four links of value one. *)
Example scenario_graph :
  List.map node_id (nodes (prepareSankeyData demoBooks ["Fiction"]))
  = ["g_Fiction"; "r_Acclaimed (4.5+)"; "m_Adapted to Movie";
     "r_Average (< 3.5)"; "m_Not Adapted"]
  /\ links (prepareSankeyData demoBooks ["Fiction"])
     = [ {| source := "g_Fiction"; target := "r_Acclaimed (4.5+)"; value := 1 |};
         {| source := "r_Acclaimed (4.5+)"; target := "m_Adapted to Movie";
            value := 1 |};
         {| source := "g_Fiction"; target := "r_Average (< 3.5)"; value := 1 |};
         {| source := "r_Average (< 3.5)"; target := "m_Not Adapted";
            value := 1 |} ].
Proof. split; reflexivity. Qed.

(** A brush, then a click on a node: the node is selected and the brush is
    cleared. *)
Example scenario_brush_then_node :
  brushedIds (run [BrushChange {[ JS.lit 1 ]}; NodeClick "g_Fiction"]) = ∅
  /\ selectedSankeyNode (run [BrushChange {[ JS.lit 1 ]}; NodeClick "g_Fiction"])
     = Some "g_Fiction".
Proof. split; reflexivity. Qed.

(** * Further properties of the code *)

(** ** Counting by key *)

Lemma bump_get_eq (m : JSMap.t nat) (k : string) :
  JSMap.get (bump m k) k = Some (default 0 (JSMap.get m k) + 1).
Proof. apply get_set_eq. Qed.

Lemma bump_get_ne (m : JSMap.t nat) (k k' : string) :
  k <> k' -> JSMap.get (bump m k) k' = JSMap.get m k'.
Proof. apply get_set_ne. Qed.

Lemma freqBy_snoc (key : BookData -> string) (g : string)
    (data : list BookData) (b : BookData) :
  freqBy key g (data ++ [b])%list
  = freqBy key g data + (if String.eqb (key b) g then 1 else 0).
Proof.
  unfold freqBy. rewrite List.filter_app, length_app. simpl.
  destruct (String.eqb (key b) g); reflexivity.
Qed.

Lemma freqBy_pos (key : BookData -> string) (g : string)
    (data : list BookData) :
  0 < freqBy key g data <-> exists b, b ∈ data /\ key b = g.
Proof.
  unfold freqBy. induction data as [|a data IH]; simpl.
  - split; [lia|]. intros (b & Hb & _). inversion Hb.
  - destruct (String.eqb (key a) g) eqn:E; simpl.
    + apply String.eqb_eq in E. split; [|lia]. intros _. exists a.
      split; [apply list_elem_of_here | exact E].
    + apply String.eqb_neq in E. rewrite IH. split.
      * intros (b & Hb & Hg). exists b. split; [|exact Hg].
        apply list_elem_of_further, Hb.
      * intros (b & Hb & Hg). apply elem_of_cons in Hb as [->|Hb];
          [contradiction|]. exists b. auto.
Qed.

Section CountBy.
Variable key : BookData -> string.

Lemma countBy_snoc (data : list BookData) (b : BookData) :
  countBy key (data ++ [b])%list = countStep key (countBy key data) b.
Proof. unfold countBy. apply foldl_snoc. Qed.

Lemma countBy_get (data : list BookData) (g : string) :
  JSMap.get (countBy key data) g
  = if JS.truthy_str g && (0 <? freqBy key g data)%nat
    then Some (freqBy key g data) else None.
Proof.
  revert g. induction data as [|b data IH] using rev_ind; intros g.
  - simpl. rewrite andb_false_r. reflexivity.
  - rewrite countBy_snoc, freqBy_snoc. unfold countStep.
    destruct (JS.truthy_str (key b)) eqn:Eb.
    + destruct (String.eqb (key b) g) eqn:Eg.
      * apply String.eqb_eq in Eg. subst g. rewrite bump_get_eq, IH, Eb. simpl.
        replace (0 <? freqBy key (key b) data + 1)%nat with true
          by (symmetry; apply Nat.ltb_lt; lia).
        destruct (0 <? freqBy key (key b) data)%nat eqn:E0; simpl;
          [reflexivity|].
        apply Nat.ltb_ge in E0. f_equal. lia.
      * apply String.eqb_neq in Eg. rewrite bump_get_ne by exact Eg.
        rewrite IH, Nat.add_0_r. reflexivity.
    + rewrite IH. destruct g as [|c g]; [reflexivity|].
      destruct (key b) eqn:Ek; [|discriminate]. simpl. rewrite Nat.add_0_r.
      reflexivity.
Qed.

Lemma countBy_keys (data : list BookData) (g : string) :
  g ∈ List.map fst (countBy key data)
  <-> g <> "" /\ exists b, b ∈ data /\ key b = g.
Proof.
  rewrite <- get_is_Some, countBy_get, <- freqBy_pos, <- truthy_str_true.
  rewrite <- Nat.ltb_lt, <- andb_true_iff.
  destruct (JS.truthy_str g && (0 <? freqBy key g data)%nat);
    split; eauto; intros H; try discriminate. destruct H; discriminate.
Qed.

Lemma countBy_NoDup (data : list BookData) :
  NoDup (List.map fst (countBy key data)).
Proof.
  induction data as [|b data IH] using rev_ind; [constructor|].
  rewrite countBy_snoc. unfold countStep.
  destruct (JS.truthy_str (key b)); [apply bump_keys_NoDup, IH | exact IH].
Qed.

Lemma countBy_total (data : list BookData) :
  total (countBy key data) = length (keyed key data).
Proof.
  unfold total, keyed.
  induction data as [|b data IH] using rev_ind; [reflexivity|].
  rewrite countBy_snoc, List.filter_app, length_app. unfold countStep. simpl.
  destruct (JS.truthy_str (key b)); simpl.
  - rewrite weight_bump, IH. reflexivity.
  - rewrite IH. lia.
Qed.

(** An entry of the map: the key is not empty and the counter is the
    number of records with that key, at least one. *)
Lemma countBy_entry (data : list BookData) (g : string) (n : nat) :
  (g, n) ∈ countBy key data ->
  g <> "" /\ n = freqBy key g data /\ 1 <= n.
Proof.
  intros H. apply elem_of_get in H; [|apply countBy_NoDup].
  rewrite countBy_get in H.
  destruct (JS.truthy_str g) eqn:Eg; simpl in H; [|discriminate].
  destruct (0 <? freqBy key g data)%nat eqn:E0; [|discriminate].
  injection H as <-. apply Nat.ltb_lt in E0. apply truthy_str_true in Eg.
  auto.
Qed.

End CountBy.

(** Projecting a map of statistics on its counters commutes with [set]. *)
Lemma map_set {V W : Type} (f : V -> W) (m : JSMap.t V) (k : string) (v : V) :
  List.map (fun e => (fst e, f (snd e))) (JSMap.set m k v)
  = JSMap.set (List.map (fun e => (fst e, f (snd e))) m) k (f v).
Proof.
  induction m as [|[k' v'] m IH]; simpl; [reflexivity|].
  destruct (String.eqb k' k); simpl; [reflexivity|]. rewrite IH. reflexivity.
Qed.

Lemma map_get {V W : Type} (f : V -> W) (m : JSMap.t V) (k : string) :
  JSMap.get (List.map (fun e => (fst e, f (snd e))) m) k
  = option_map f (JSMap.get m k).
Proof.
  induction m as [|[k' v'] m IH]; simpl; [reflexivity|].
  destruct (String.eqb k' k); [reflexivity | exact IH].
Qed.

Lemma genreMapOf_counts (fadd : number -> number -> number)
    (data : list BookData) :
  List.map (fun e => (fst e, gs_count (snd e))) (genreMapOf fadd data)
  = countBy genre data.
Proof.
  induction data as [|b data IH] using rev_ind; [reflexivity|].
  rewrite genreMapOf_snoc, countBy_snoc. unfold genreStep, countStep.
  destruct (JS.truthy_str (genre b)); simpl; [|exact IH].
  rewrite map_set. unfold bump. rewrite <- IH, map_get. simpl.
  destruct (JSMap.get (genreMapOf fadd data) (genre b)); reflexivity.
Qed.

Lemma countryMapOf_counts (fadd : number -> number -> number)
    (data : list BookData) :
  List.map (fun e => (fst e, cs_count (snd e))) (countryMapOf fadd data)
  = countBy most_popular_country data.
Proof.
  induction data as [|b data IH] using rev_ind; [reflexivity|].
  unfold countryMapOf in *. rewrite foldl_snoc, countBy_snoc.
  unfold countryStep at 1, countStep.
  destruct (JS.truthy_str (most_popular_country b)); simpl; [|exact IH].
  rewrite map_set. unfold bump. rewrite <- IH, map_get. simpl.
  destruct (JSMap.get (foldl (countryStep fadd) JSMap.empty data)
              (most_popular_country b)); reflexivity.
Qed.

(** ** [aggregateByGenre] and [aggregateByCountry] *)

Lemma total_sum (m : JSMap.t nat) : total m = list_sum (List.map snd m).
Proof.
  unfold total, weight. induction m as [|[k v] m IH]; simpl; [reflexivity|].
  rewrite IH. reflexivity.
Qed.

(** The genre and count columns of the result are the counting map. *)
Lemma aggregateByGenre_columns (fadd fdiv : number -> number -> number)
    (data : list BookData) :
  List.map (fun d => (gd_genre d, count d)) (aggregateByGenre fadd fdiv data)
  = countBy genre data.
Proof.
  rewrite <- (genreMapOf_counts fadd). unfold aggregateByGenre, JSMap.entries.
  rewrite List.map_map. apply List.map_ext. intros [g st]. reflexivity.
Qed.

Lemma aggregateByCountry_columns (fadd fdiv : number -> number -> number)
    (data : list BookData) :
  List.map (fun d => (country d, cd_count d))
           (aggregateByCountry fadd fdiv data)
  = countBy most_popular_country data.
Proof.
  rewrite <- (countryMapOf_counts fadd).
  unfold aggregateByCountry, countryMapOf, JSMap.entries.
  rewrite List.map_map. apply List.map_ext. intros [g st]. reflexivity.
Qed.

Lemma columns_keys {D : Type} (k : D -> string) (c : D -> nat) (l : list D) :
  List.map fst (List.map (fun d => (k d, c d)) l) = List.map k l.
Proof. rewrite List.map_map. reflexivity. Qed.

Lemma columns_counts {D : Type} (k : D -> string) (c : D -> nat) (l : list D) :
  List.map snd (List.map (fun d => (k d, c d)) l) = List.map c l.
Proof. rewrite List.map_map. reflexivity. Qed.

Lemma columns_elem_of {D : Type} (k : D -> string) (c : D -> nat) (l : list D)
    (d : D) :
  d ∈ l -> (k d, c d) ∈ List.map (fun d => (k d, c d)) l.
Proof.
  intros H. apply list_elem_of_In, in_map_iff. exists d.
  split; [reflexivity | apply list_elem_of_In, H].
Qed.

(** X1.  [aggregateByGenre] returns one group per distinct non-empty genre
    of the data, in the order in which the genres first appear; the count of
    a group is the number of records of its genre, hence at least one. *)
Theorem aggregateByGenre_groups (fadd fdiv : number -> number -> number)
    (data : list BookData) :
  NoDup (List.map gd_genre (aggregateByGenre fadd fdiv data))
  /\ (forall g, g ∈ List.map gd_genre (aggregateByGenre fadd fdiv data)
                <-> is_genre_of data g)
  /\ (forall d, d ∈ aggregateByGenre fadd fdiv data ->
                count d = freq (gd_genre d) data /\ 1 <= count d)
  /\ StronglySorted (seen_before data)
       (List.map gd_genre (aggregateByGenre fadd fdiv data)).
Proof.
  rewrite aggregateByGenre_genres. split; [apply genreMapOf_NoDup|].
  split; [|split; [|apply genreMapOf_order]].
  - intros g. rewrite genreMapOf_keys, freq_pos. reflexivity.
  - intros d Hd.
    apply (columns_elem_of gd_genre count) in Hd.
    rewrite aggregateByGenre_columns in Hd.
    apply countBy_entry in Hd as (_ & Hc & Hpos). split; [exact Hc|exact Hpos].
Qed.

(** X2.  The counts of the groups of [aggregateByGenre] add up to the number
    of records whose genre is not empty; no record is counted twice and
    none with a genre is lost. *)
Theorem aggregateByGenre_total (fadd fdiv : number -> number -> number)
    (data : list BookData) :
  list_sum (List.map count (aggregateByGenre fadd fdiv data))
  = length (keyed genre data).
Proof.
  rewrite <- (columns_counts gd_genre count), aggregateByGenre_columns.
  rewrite <- total_sum. apply countBy_total.
Qed.

(** X3.  [aggregateByCountry] returns one entry per distinct non-empty
    country of the data; its count is the number of records of that
    country, hence at least one (so the average never divides by zero). *)
Theorem aggregateByCountry_groups (fadd fdiv : number -> number -> number)
    (data : list BookData) :
  NoDup (List.map country (aggregateByCountry fadd fdiv data))
  /\ (forall c, c ∈ List.map country (aggregateByCountry fadd fdiv data)
                <-> c <> "" /\ exists b, b ∈ data /\ most_popular_country b = c)
  /\ (forall d, d ∈ aggregateByCountry fadd fdiv data ->
                cd_count d = freqBy most_popular_country (country d) data
                /\ 1 <= cd_count d).
Proof.
  rewrite <- (columns_keys country cd_count), aggregateByCountry_columns.
  split; [apply countBy_NoDup|]. split; [apply countBy_keys|].
  intros d Hd. apply (columns_elem_of country cd_count) in Hd.
  rewrite aggregateByCountry_columns in Hd.
  apply countBy_entry in Hd as (_ & Hc & Hpos). auto.
Qed.

(** X4.  The counts of [aggregateByCountry] add up to the number of records
    whose country is not empty: records without a country are left out and
    every other record is counted once. *)
Theorem aggregateByCountry_total (fadd fdiv : number -> number -> number)
    (data : list BookData) :
  list_sum (List.map cd_count (aggregateByCountry fadd fdiv data))
  = length (keyed most_popular_country data).
Proof.
  rewrite <- (columns_counts country cd_count), aggregateByCountry_columns.
  rewrite <- total_sum. apply countBy_total.
Qed.

Example aggregateByCountry_example :
  List.map (fun d => (country d, cd_count d))
    (aggregateByCountry exactAdd exactDiv
       [bookIn 1 "USA"; bookIn 2 ""; bookIn 3 "UK"; bookIn 4 "USA"])
  = [("USA", 2); ("UK", 1)].
Proof. reflexivity. Qed.

(** ** [filterByGenres] *)

Lemma filter_sublist {A : Type} (p : A -> bool) (l : list A) :
  List.filter p l `sublist_of` l.
Proof.
  induction l as [|a l IH]; simpl; [constructor|].
  destruct (p a); [apply sublist_skip | apply sublist_cons]; exact IH.
Qed.

Lemma filter_idem {A : Type} (p : A -> bool) (l : list A) :
  List.filter p (List.filter p l) = List.filter p l.
Proof.
  induction l as [|a l IH]; simpl; [reflexivity|].
  destruct (p a) eqn:E; simpl; rewrite ?E, IH; reflexivity.
Qed.

Lemma filterByGenres_nonempty (data : list BookData) (genres : list string) :
  genres <> [] ->
  filterByGenres data genres
  = List.filter (fun book => JS.includes genres (genre book)) data.
Proof. unfold filterByGenres. destruct genres; [congruence | reflexivity]. Qed.

(** X5.  [filterByGenres] returns a subsequence of the data.  With a
    non-empty genre list it keeps exactly the records whose genre is listed;
    filtering the result again with the same list changes nothing; and with
    an empty list it keeps every record, although no genre is listed. *)
Theorem filterByGenres_spec (data : list BookData) (genres : list string) :
  filterByGenres data genres `sublist_of` data
  /\ (genres <> [] ->
      forall b, b ∈ filterByGenres data genres
                <-> b ∈ data /\ genre b ∈ genres)
  /\ filterByGenres (filterByGenres data genres) genres
     = filterByGenres data genres
  /\ filterByGenres data [] = data.
Proof.
  destruct genres as [|g genres].
  - repeat split; try reflexivity; congruence.
  - rewrite !filterByGenres_nonempty by discriminate.
    split; [apply filter_sublist|]. split; [|split; [apply filter_idem|]].
    + intros _ b. rewrite list_elem_of_In, filter_In, <- list_elem_of_In.
      rewrite includes_elem_of. reflexivity.
    + reflexivity.
Qed.

(** ** More on [getTopGenres], and the bars of [BarChart] *)

Lemma genreRanking_length (fadd fdiv : number -> number -> number)
    (data : list BookData) :
  length (genreRanking fadd fdiv data)
  = length (aggregateByGenre fadd fdiv data).
Proof.
  unfold genreRanking. rewrite length_map.
  apply Permutation_length, sort_Permutation.
Qed.

(** X6.  For [n >= 0], [getTopGenres] returns [n] names when the data has
    that many genres and all of them otherwise: the length is the smaller
    of [n] and the number of groups, and with [n] at least the number of
    groups the result holds every non-empty genre of the data. *)
Theorem getTopGenres_length (fadd fdiv : number -> number -> number)
    (data : list BookData) (n : Z) :
  (0 <= n)%Z ->
  length (getTopGenres fadd fdiv data n)
  = Nat.min (Z.to_nat n) (length (aggregateByGenre fadd fdiv data))
  /\ ((Z.of_nat (length (aggregateByGenre fadd fdiv data)) <= n)%Z ->
      forall g, g ∈ getTopGenres fadd fdiv data n <-> is_genre_of data g).
Proof.
  intros Hn. rewrite getTopGenres_slice. unfold slice0.
  replace (n <? 0)%Z with false by (symmetry; apply Z.ltb_ge, Hn).
  rewrite length_take, genreRanking_length. split; [reflexivity|].
  intros Hall g. rewrite take_ge by (rewrite genreRanking_length; lia).
  apply genreRanking_elem_of.
Qed.

Lemma getTopGenres_length_witness :
  (0 <= 2)%Z
  /\ length (getTopGenres exactAdd exactDiv threeGenres 2) = 2.
Proof.
  assert (H : (0 <= 2)%Z) by lia. split; [exact H|].
  exact (proj1 (getTopGenres_length exactAdd exactDiv threeGenres 2 H)).
Defined.

(** X7.  Whatever [n], the genres [getTopGenres] returns are the most
    frequent ones: a genre of the data that is not returned has at most as
    many records as any genre that is returned. *)
Theorem getTopGenres_dominates (fadd fdiv : number -> number -> number)
    (data : list BookData) (n : Z) (g h : string) :
  g ∈ getTopGenres fadd fdiv data n ->
  is_genre_of data h ->
  h ∉ getTopGenres fadd fdiv data n ->
  freq h data <= freq g data.
Proof.
  rewrite getTopGenres_slice. intros Hg Hh Hnot.
  assert (Hk : exists k, slice0 n (genreRanking fadd fdiv data)
                         = take k (genreRanking fadd fdiv data)).
  { unfold slice0. destruct (n <? 0)%Z; eauto. }
  destruct Hk as [k Hk]. rewrite Hk in Hg, Hnot.
  apply (genreRanking_elem_of fadd fdiv) in Hh.
  pose proof (genreRanking_sorted fadd fdiv data) as Hs.
  rewrite <- (take_drop k (genreRanking fadd fdiv data)) in Hs, Hh.
  apply elem_of_app in Hh as [Hh|Hh]; [contradiction|].
  apply ranks_before_desc.
  exact (StronglySorted_app_1_elem_of _ _ _ _ _ Hs Hg Hh).
Qed.

Lemma getTopGenres_dominates_witness :
  freq "C" threeGenres <= freq "B" threeGenres.
Proof.
  apply (getTopGenres_dominates exactAdd exactDiv threeGenres 1 "B" "C").
  - apply list_elem_of_here.
  - split; [discriminate|]. exists (book 4 "C" 3 false).
    split; [|reflexivity]. unfold threeGenres.
    do 3 apply list_elem_of_further. apply list_elem_of_here.
  - intros H. apply list_elem_of_singleton in H. discriminate.
Defined.

Lemma StronglySorted_filter {A : Type} (R : relation A) (p : A -> bool)
    (l : list A) :
  StronglySorted R l -> StronglySorted R (List.filter p l).
Proof.
  induction 1 as [|a l _ IH Hall]; simpl; [constructor|].
  destruct (p a); [|exact IH]. constructor; [exact IH|].
  apply Forall_forall. intros y Hy.
  apply list_elem_of_In, filter_In in Hy as [Hy _].
  apply (proj1 (Forall_forall _ _) Hall), list_elem_of_In, Hy.
Qed.

Lemma StronglySorted_take {A : Type} (R : relation A) (k : nat) (l : list A) :
  StronglySorted R l -> StronglySorted R (take k l).
Proof.
  intros H. rewrite <- (take_drop k l) in H.
  exact (StronglySorted_app_1_l _ _ _ H).
Qed.

Lemma NoDup_map_inj {A B : Type} (f : A -> B) (l : list A) (x y : A) :
  NoDup (List.map f l) -> x ∈ l -> y ∈ l -> f x = f y -> x = y.
Proof.
  induction l as [|a l IH]; simpl; intros Hnd Hx Hy Hf; [inversion Hx|].
  apply NoDup_cons in Hnd as [Ha Hnd].
  assert (Hin : forall z, z ∈ l -> f z ∈ List.map f l).
  { intros z Hz. apply list_elem_of_In, in_map, list_elem_of_In, Hz. }
  apply elem_of_cons in Hx as [->|Hx]; apply elem_of_cons in Hy as [->|Hy];
    auto.
  - exfalso. apply Ha. rewrite Hf. auto.
  - exfalso. apply Ha. rewrite <- Hf. auto.
Qed.

Lemma NoDup_of_map {A B : Type} (f : A -> B) (l : list A) :
  NoDup (List.map f l) -> NoDup l.
Proof.
  induction l as [|a l IH]; simpl; intros Hnd; [constructor|].
  apply NoDup_cons in Hnd as [Ha Hnd]. apply NoDup_cons. split; [|auto].
  intros Hin. apply Ha, list_elem_of_In, in_map, list_elem_of_In, Hin.
Qed.

(** X8.  When [topGenres] is what [getTopGenres] returned for the same
    books, the bars of the bar chart are exactly the top genres, in the same
    order: filtering the groups by the list and sorting again gives the
    list back. *)
Theorem barGenreData_topGenres (fadd fdiv : number -> number -> number)
    (allBooks : list BookData) (n : Z) :
  List.map gd_genre
    (barGenreData fadd fdiv allBooks (getTopGenres fadd fdiv allBooks n))
  = getTopGenres fadd fdiv allBooks n.
Proof.
  unfold barGenreData, getTopGenres. f_equal.
  set (agg := aggregateByGenre fadd fdiv allBooks).
  set (key := fun d : GenreData => Z.of_nat (count d)).
  set (R := fun a b : GenreData =>
              seen_before allBooks (gd_genre a) (gd_genre b)).
  assert (Hagg : StronglySorted R agg).
  { unfold R. apply (StronglySorted_of_map gd_genre (seen_before allBooks)).
    unfold agg. rewrite aggregateByGenre_genres. apply genreMapOf_order. }
  assert (Hnd : NoDup (List.map gd_genre agg)).
  { unfold agg. rewrite aggregateByGenre_genres. apply genreMapOf_NoDup. }
  assert (Hk : exists k, slice0 n (sort byCountDesc agg)
                         = take k (sort byCountDesc agg)).
  { unfold slice0. destruct (n <? 0)%Z; eauto. }
  destruct Hk as [k Hk]. rewrite Hk.
  apply (StronglySorted_unique_strong (stable_desc key R)).
  - intros a b _ _ [Hab|[Hab Rab]] [Hba|[Hba Rba]]; try lia.
    unfold R, seen_before in *. lia.
  - apply (sort_stable byCountDesc key); [reflexivity|].
    apply StronglySorted_filter, Hagg.
  - apply StronglySorted_take.
    apply (sort_stable byCountDesc key); [reflexivity | exact Hagg].
  - apply NoDup_Permutation.
    + rewrite sort_Permutation.
      apply (sublist_NoDup _ agg); [|apply filter_sublist].
      apply NoDup_of_map with (f := gd_genre), Hnd.
    + apply (sublist_NoDup _ (sort byCountDesc agg)); [|apply sublist_take].
      rewrite sort_Permutation.
      apply NoDup_of_map with (f := gd_genre), Hnd.
    + intros x. rewrite sort_Permutation.
      rewrite list_elem_of_In, filter_In, <- list_elem_of_In.
      rewrite includes_elem_of. split.
      * intros [Hx Hg]. apply list_elem_of_In, in_map_iff in Hg
          as (y & Hy & Hin). apply list_elem_of_In in Hin.
        assert (Hyagg : y ∈ agg).
        { apply subseteq_take in Hin. rewrite sort_Permutation in Hin.
          exact Hin. }
        rewrite <- (NoDup_map_inj gd_genre agg y x Hnd Hyagg Hx Hy).
        exact Hin.
      * intros Hx. split.
        -- apply subseteq_take in Hx. rewrite sort_Permutation in Hx.
           exact Hx.
        -- apply list_elem_of_In, in_map, list_elem_of_In, Hx.
Qed.

Example barGenreData_example :
  List.map gd_genre
    (barGenreData exactAdd exactDiv threeGenres
       (getTopGenres exactAdd exactDiv threeGenres 2))
  = ["B"; "A"].
Proof. reflexivity. Qed.

(** ** More on [prepareSankeyData] *)

Section JSMapSetFacts.
Context {V : Type}.
Implicit Types (m : JSMap.t V) (k : string) (v : V).

Lemma set_keys_elem_of m k v x :
  x ∈ List.map fst (JSMap.set m k v) <-> x = k \/ x ∈ List.map fst m.
Proof.
  rewrite keys_set. destruct (JSMap.get m k) eqn:E.
  - split; [auto|]. intros [->|H]; [|exact H]. apply get_is_Some. eauto.
  - rewrite elem_of_app, list_elem_of_singleton. tauto.
Qed.

Lemma set_elem_of m k v k' v' :
  (k', v') ∈ JSMap.set m k v -> (k' = k /\ v' = v) \/ (k', v') ∈ m.
Proof.
  induction m as [|[k0 v0] m IH]; simpl.
  - intros H. apply list_elem_of_singleton in H. injection H as -> ->. auto.
  - destruct (String.eqb k0 k) eqn:E.
    + apply String.eqb_eq in E. subst k0. rewrite !elem_of_cons.
      intros [H|H]; [injection H as -> ->; auto | auto].
    + rewrite !elem_of_cons. intros [H|H]; [auto|].
      destruct (IH H) as [?|?]; auto.
Qed.

End JSMapSetFacts.

Lemma sankeyStep_nodes (topGenreList : list string)
    (acc : JSMap.t string * JSMap.t nat) (b : BookData) :
  fst (sankeyStep topGenreList acc b) = nodeStep topGenreList (fst acc) b.
Proof.
  destruct acc as [nodesMap lm]. unfold sankeyStep, nodeStep.
  rewrite <- negb_andb. fold (flows b). destruct (flows b); reflexivity.
Qed.

Lemma nodesMapOf_fold (data : list BookData) (topGenreList : list string) :
  nodesMapOf data topGenreList
  = foldl (nodeStep topGenreList) JSMap.empty data.
Proof.
  unfold nodesMapOf.
  change (@JSMap.empty string)
    with (fst (@JSMap.empty string, @JSMap.empty nat)) at 2.
  generalize (@JSMap.empty string, @JSMap.empty nat).
  induction data as [|b data IH]; intros acc; [reflexivity|].
  cbn [foldl]. rewrite IH, sankeyStep_nodes. reflexivity.
Qed.

Lemma prepareSankeyData_nodes (data : list BookData)
    (topGenreList : list string) :
  nodes (prepareSankeyData data topGenreList)
  = List.map (fun e => {| node_id := fst e; name := snd e |})
             (nodesMapOf data topGenreList).
Proof.
  unfold prepareSankeyData, nodesMapOf, JSMap.entries.
  destruct (foldl (sankeyStep topGenreList) (JSMap.empty, JSMap.empty) data).
  simpl. apply List.map_ext. intros [k v]. reflexivity.
Qed.

Lemma nodeIds_keys (data : list BookData) (topGenreList : list string) :
  nodeIds (prepareSankeyData data topGenreList)
  = List.map fst (nodesMapOf data topGenreList).
Proof.
  unfold nodeIds. rewrite prepareSankeyData_nodes, List.map_map.
  reflexivity.
Qed.

Lemma nodesMapOf_NoDup (data : list BookData) (topGenreList : list string) :
  NoDup (List.map fst (nodesMapOf data topGenreList)).
Proof.
  rewrite nodesMapOf_fold.
  induction data as [|b data IH] using rev_ind; [constructor|].
  rewrite foldl_snoc. unfold nodeStep at 1.
  destruct (flows b); [|exact IH]. do 3 apply set_keys_NoDup. exact IH.
Qed.

Lemma nodesMapOf_keys (data : list BookData) (topGenreList : list string)
    (k : string) :
  k ∈ List.map fst (nodesMapOf data topGenreList)
  <-> exists b, b ∈ data /\ flows b = true /\ k ∈ nodeTriple topGenreList b.
Proof.
  rewrite nodesMapOf_fold.
  induction data as [|b data IH] using rev_ind.
  - simpl. split; [intros H; inversion H|].
    intros (b & Hb & _). inversion Hb.
  - rewrite foldl_snoc. unfold nodeStep at 1.
    assert (Hsnoc : (exists b0, b0 ∈ (data ++ [b])%list /\ flows b0 = true
                       /\ k ∈ nodeTriple topGenreList b0)
                    <-> (flows b = true /\ k ∈ nodeTriple topGenreList b)
                        \/ exists b0, b0 ∈ data /\ flows b0 = true
                             /\ k ∈ nodeTriple topGenreList b0).
    { split.
      - intros (b0 & Hb0 & Hf & Hk). apply elem_of_app in Hb0 as [Hb0|Hb0].
        + right. eauto.
        + apply list_elem_of_singleton in Hb0. subst b0. auto.
      - intros [[Hf Hk]|(b0 & Hb0 & Hf & Hk)].
        + exists b. split; [apply elem_of_app; right; apply list_elem_of_here|].
          auto.
        + exists b0. split; [apply elem_of_app; auto | auto]. }
    rewrite Hsnoc, <- IH. destruct (flows b) eqn:Eb.
    + rewrite !set_keys_elem_of. unfold nodeTriple.
      rewrite !elem_of_cons, elem_of_nil.
      unfold genreNodeId, ratingNodeId, movieNodeId, processedGenreOf,
        movieStatusOf. tauto.
    + split; [auto|]. intros [[Hf _]|H]; [discriminate | exact H].
Qed.

Lemma nodesMapOf_prefixed (data : list BookData) (topGenreList : list string)
    (k v : string) :
  (k, v) ∈ nodesMapOf data topGenreList -> prefixed k v.
Proof.
  rewrite nodesMapOf_fold.
  induction data as [|b data IH] using rev_ind; [intros H; inversion H|].
  rewrite foldl_snoc. unfold nodeStep at 1.
  destruct (flows b); [|exact IH]. unfold prefixed. intros H.
  apply set_elem_of in H as [[-> ->]|H]; [auto|].
  apply set_elem_of in H as [[-> ->]|H]; [auto|].
  apply set_elem_of in H as [[-> ->]|H]; [auto|]. apply IH, H.
Qed.

(** X9.  The nodes of the graph have distinct ids; the ids are exactly the
    genre, tier and status ids of the records that flow (a genre outside
    the top list counting as Others); and every id is its layer prefix
    [g_], [r_] or [m_] followed by the node's display name. *)
Theorem prepareSankeyData_node_set (data : list BookData)
    (topGenreList : list string) :
  NoDup (nodeIds (prepareSankeyData data topGenreList))
  /\ (forall k, k ∈ nodeIds (prepareSankeyData data topGenreList)
                <-> exists b, b ∈ data /\ flows b = true
                              /\ k ∈ nodeTriple topGenreList b)
  /\ (forall nd, nd ∈ nodes (prepareSankeyData data topGenreList) ->
                 prefixed (node_id nd) (name nd)).
Proof.
  rewrite nodeIds_keys. split; [apply nodesMapOf_NoDup|].
  split; [apply nodesMapOf_keys|].
  intros nd Hnd. rewrite prepareSankeyData_nodes in Hnd.
  apply list_elem_of_In, in_map_iff in Hnd as ([k v] & <- & Hin).
  apply list_elem_of_In in Hin. exact (nodesMapOf_prefixed _ _ _ _ Hin).
Qed.

Lemma flow_all (data : list BookData) (topGenreList : list string) :
  flow (fun _ => true) (prepareSankeyData data topGenreList)
  = 2 * length (List.filter flows data).
Proof.
  rewrite (flow_weight (fun _ _ => true)), weight_linksMapOf.
  rewrite (List.filter_ext (fun b => flows b && true) flows)
    by (intros b; apply andb_true_r).
  lia.
Qed.

(** X10.  Every record that flows adds one to exactly two links, one of
    which leaves the genre layer: the values of all links add up to twice
    the number of flowing records, and the values of the links whose source
    begins with [g_] add up to that number.  This holds for every input. *)
Theorem prepareSankeyData_totals (data : list BookData)
    (topGenreList : list string) :
  flow (fun _ => true) (prepareSankeyData data topGenreList)
  = 2 * length (List.filter flows data)
  /\ flow (fun l => startsWith "g_" (source l))
          (prepareSankeyData data topGenreList)
     = length (List.filter flows data).
Proof. split; [apply flow_all | apply prepareSankeyData_genre_flow]. Qed.

Lemma filter_nil_iff {A : Type} (p : A -> bool) (l : list A) :
  List.filter p l = [] <-> forall x, x ∈ l -> p x = false.
Proof.
  induction l as [|a l IH]; simpl.
  - split; [intros _ x Hx; inversion Hx | reflexivity].
  - destruct (p a) eqn:E.
    + split; [discriminate|]. intros H.
      rewrite (H a (list_elem_of_here _ _)) in E. discriminate.
    + rewrite IH. split.
      * intros H x Hx. apply elem_of_cons in Hx as [->|Hx]; auto.
      * intros H x Hx. apply H, list_elem_of_further, Hx.
Qed.

(** X11.  The graph is empty exactly when no record flows: it has no node
    iff every record lacks a genre or a usable rating, and likewise it has
    no link iff that is so.  In particular empty data gives the empty
    graph. *)
Theorem prepareSankeyData_empty_iff (data : list BookData)
    (topGenreList : list string) :
  (nodes (prepareSankeyData data topGenreList) = []
   <-> forall b, b ∈ data -> flows b = false)
  /\ (links (prepareSankeyData data topGenreList) = []
      <-> forall b, b ∈ data -> flows b = false).
Proof.
  assert (Hnone : (forall b, b ∈ data -> flows b = false) ->
                  prepareSankeyData data topGenreList
                  = {| nodes := []; links := [] |}).
  { intros H. rewrite <- prepareSankeyData_skips.
    rewrite (proj2 (filter_nil_iff flows data) H). reflexivity. }
  split; (split; [|intros H; rewrite (Hnone H); reflexivity]).
  - intros Hn b Hb. destruct (flows b) eqn:E; [|reflexivity]. exfalso.
    assert (Hk : genreNodeId topGenreList b
                 ∈ nodeIds (prepareSankeyData data topGenreList)).
    { rewrite nodeIds_keys. apply nodesMapOf_keys. exists b.
      split; [exact Hb|]. split; [exact E | apply list_elem_of_here]. }
    unfold nodeIds in Hk. rewrite Hn in Hk. inversion Hk.
  - intros Hl. apply filter_nil_iff.
    pose proof (flow_all data topGenreList) as Hsum. unfold flow in Hsum.
    rewrite Hl in Hsum. simpl in Hsum.
    destruct (List.filter flows data); [reflexivity | simpl in Hsum; lia].
Qed.

(** X12.  A record without genre, or whose rating is zero or not a number,
    leaves no trace in the graph: removing it from the data gives the same
    graph (it is not counted under Others). *)
Theorem prepareSankeyData_ignores (data1 data2 : list BookData)
    (b : BookData) (topGenreList : list string) :
  genre b = "" \/ JS.truthy (rating_average b) = false ->
  prepareSankeyData (data1 ++ b :: data2) topGenreList
  = prepareSankeyData (data1 ++ data2) topGenreList.
Proof.
  intros Hb.
  assert (Hf : flows b = false).
  { unfold flows. destruct Hb as [-> | ->]; [reflexivity | apply andb_false_r]. }
  rewrite <- (prepareSankeyData_skips (data1 ++ b :: data2)).
  rewrite <- (prepareSankeyData_skips (data1 ++ data2)).
  rewrite !List.filter_app. simpl. rewrite Hf. reflexivity.
Qed.

Lemma prepareSankeyData_ignores_witness :
  prepareSankeyData
    ([book 1 "Fiction" 4.6 true] ++ book 9 "" 4 false
       :: [book 2 "Fiction" 3.0 false]) ["Fiction"]
  = prepareSankeyData
      ([book 1 "Fiction" 4.6 true] ++ [book 2 "Fiction" 3.0 false])
      ["Fiction"].
Proof.
  apply (prepareSankeyData_ignores [book 1 "Fiction" 4.6 true]
           [book 2 "Fiction" 3.0 false] (book 9 "" 4 false) ["Fiction"]).
  left. reflexivity.
Defined.

(** *** The graph when no top genre holds the separator *)

Lemma weight_absent (m : JSMap.t nat) (k : string) :
  k ∉ List.map fst m -> weight (fun k' => String.eqb k' k) m = 0.
Proof.
  unfold weight. induction m as [|[k0 v0] m IH]; simpl; [reflexivity|].
  rewrite not_elem_of_cons. intros [Hne Hk].
  destruct (String.eqb k0 k) eqn:E.
  - apply String.eqb_eq in E. congruence.
  - apply IH, Hk.
Qed.

Lemma weight_entry (m : JSMap.t nat) (k : string) (v : nat) :
  NoDup (List.map fst m) -> (k, v) ∈ m ->
  weight (fun k' => String.eqb k' k) m = v.
Proof.
  induction m as [|[k0 v0] m IH]; simpl; intros Hnd Hin; [inversion Hin|].
  apply NoDup_cons in Hnd as [Hk0 Hnd]. unfold weight in *. simpl.
  apply elem_of_cons in Hin as [Heq|Hin].
  - injection Heq as <- <-. rewrite String.eqb_refl. simpl.
    pose proof (weight_absent m k Hk0) as H0. unfold weight in H0.
    rewrite H0. lia.
  - destruct (String.eqb k0 k) eqn:E.
    + apply String.eqb_eq in E. subst k0. exfalso. apply Hk0.
      apply list_elem_of_In, in_map_iff. exists (k, v).
      split; [reflexivity | apply list_elem_of_In, Hin].
    + apply IH; assumption.
Qed.

Lemma linksMapOf_positive (data : list BookData) (topGenreList : list string)
    (k : string) (v : nat) :
  (k, v) ∈ linksMapOf data topGenreList -> 1 <= v.
Proof.
  rewrite linksMapOf_fold.
  induction data as [|b data IH] using rev_ind; [intros H; inversion H|].
  rewrite foldl_snoc. unfold linkStep at 1.
  destruct (flows b); [|exact IH]. unfold bump at 1. intros H.
  apply set_elem_of in H as [[_ ->]|H]; [lia|]. unfold bump in H.
  apply set_elem_of in H as [[_ ->]|H]; [lia|]. apply IH, H.
Qed.

Lemma join_eqb (x y x' y' : string) :
  pipe_free x -> pipe_free y -> pipe_free x' -> pipe_free y' ->
  String.eqb (x ++ "|" ++ y) (x' ++ "|" ++ y')
  = String.eqb x x' && String.eqb y y'.
Proof.
  intros Hx Hy Hx' Hy'.
  destruct (key_parts x y Hx Hy) as [S T].
  destruct (key_parts x' y' Hx' Hy') as [S' T'].
  destruct (String.eqb (x ++ "|" ++ y) (x' ++ "|" ++ y')) eqn:E.
  - apply String.eqb_eq in E. rewrite E in S, T.
    assert (Hxx : x = x') by congruence. assert (Hyy : y = y') by congruence.
    rewrite Hxx, Hyy, !String.eqb_refl. reflexivity.
  - apply String.eqb_neq in E. symmetry. apply andb_false_iff.
    destruct (String.eqb x x') eqn:Ex; [|auto]. right.
    apply String.eqb_eq in Ex. apply String.eqb_neq. congruence.
Qed.

Section PipeFreeGraph.
Variable topGenreList : list string.
Hypothesis top_pipe_free : forall g, g ∈ topGenreList -> pipe_free g.

(** A key of the link map is [s|t] for the source [s] and the target [t]
    read back from it, and these are the ids of a flowing record. *)
Lemma linksMapOf_key_form (data : list BookData) (k : string) :
  k ∈ List.map fst (linksMapOf data topGenreList) ->
  k = sourceOfKey k ++ "|" ++ targetOfKey k
  /\ pipe_free (sourceOfKey k) /\ pipe_free (targetOfKey k)
  /\ exists b, b ∈ data /\ flows b = true
       /\ sourceOfKey k ∈ nodeTriple topGenreList b
       /\ targetOfKey k ∈ nodeTriple topGenreList b.
Proof.
  intros Hk. apply linksMapOf_keys in Hk as (b & Hb & Hf & [-> | ->]).
  - destruct (link1Key_parts topGenreList top_pipe_free b) as [-> ->].
    split; [reflexivity|].
    split; [apply genreId_pipe_free, top_pipe_free|].
    split; [apply ratingId_pipe_free|].
    exists b. repeat split; try assumption.
    + apply list_elem_of_here.
    + apply list_elem_of_further, list_elem_of_here.
  - destruct (link2Key_parts b) as [-> ->].
    split; [reflexivity|].
    split; [apply ratingId_pipe_free|].
    split; [apply movieId_pipe_free|].
    exists b. repeat split; try assumption.
    + apply list_elem_of_further, list_elem_of_here.
    + do 2 apply list_elem_of_further. apply list_elem_of_here.
Qed.

Lemma linksMapOf_value (data : list BookData) (k : string) (v : nat) :
  (k, v) ∈ linksMapOf data topGenreList ->
  v = passing topGenreList (sourceOfKey k) (targetOfKey k) data.
Proof.
  intros Hin.
  assert (Hk : k ∈ List.map fst (linksMapOf data topGenreList)).
  { apply list_elem_of_In, in_map_iff. exists (k, v).
    split; [reflexivity | apply list_elem_of_In, Hin]. }
  destruct (linksMapOf_key_form data k Hk) as (Hform & Hs & Ht & _).
  rewrite <- (weight_entry _ k v (linksMapOf_NoDup data topGenreList) Hin).
  rewrite weight_linksMapOf. unfold passing. f_equal; f_equal.
  - apply List.filter_ext. intros b. rewrite <- andb_assoc. f_equal.
    rewrite Hform at 1. apply join_eqb; try assumption.
    + apply genreId_pipe_free, top_pipe_free.
    + apply ratingId_pipe_free.
  - apply List.filter_ext. intros b. rewrite <- andb_assoc. f_equal.
    rewrite Hform at 1. apply join_eqb; try assumption.
    + apply ratingId_pipe_free.
    + apply movieId_pipe_free.
Qed.

End PipeFreeGraph.

(** X13.  When no genre of the top list contains the character [|], the
    graph is well formed: no two links have the same (source, target)
    pair, and the source and the target of every link are ids of nodes of
    the graph. *)
Theorem prepareSankeyData_well_formed (data : list BookData)
    (topGenreList : list string) :
  (forall g, g ∈ topGenreList -> pipe_free g) ->
  NoDup (linkPairs (prepareSankeyData data topGenreList))
  /\ forall l, l ∈ links (prepareSankeyData data topGenreList) ->
       source l ∈ nodeIds (prepareSankeyData data topGenreList)
       /\ target l ∈ nodeIds (prepareSankeyData data topGenreList).
Proof.
  intros Htop. split; [apply prepareSankeyData_pairs_NoDup, Htop|].
  intros l Hl. rewrite prepareSankeyData_links in Hl.
  apply list_elem_of_In, in_map_iff in Hl as ([k v] & <- & Hin).
  assert (Hk : k ∈ List.map fst (linksMapOf data topGenreList)).
  { apply list_elem_of_In, in_map_iff. exists (k, v). auto. }
  destruct (linksMapOf_key_form topGenreList Htop data k Hk)
    as (_ & _ & _ & b & Hb & Hf & Hs & Ht).
  rewrite nodeIds_keys. split; apply nodesMapOf_keys; exists b; auto.
Qed.

Lemma prepareSankeyData_well_formed_witness :
  NoDup (linkPairs (prepareSankeyData demoBooks ["Fiction"])).
Proof.
  refine (proj1 (prepareSankeyData_well_formed demoBooks ["Fiction"] _)).
  intros g Hg. apply list_elem_of_singleton in Hg. subst g. reflexivity.
Defined.

(** X14.  When no genre of the top list contains [|], the value of a link
    is the number of flowing records that pass from its source to its
    target (genre to tier, or tier to status), and it is at least one. *)
Theorem prepareSankeyData_link_value (data : list BookData)
    (topGenreList : list string) (l : SankeyLinkDatum) :
  (forall g, g ∈ topGenreList -> pipe_free g) ->
  l ∈ links (prepareSankeyData data topGenreList) ->
  value l = passing topGenreList (source l) (target l) data
  /\ 1 <= value l.
Proof.
  intros Htop Hl. rewrite prepareSankeyData_links in Hl.
  apply list_elem_of_In, in_map_iff in Hl as ([k v] & <- & Hin).
  apply list_elem_of_In in Hin. simpl. split.
  - apply (linksMapOf_value topGenreList Htop data k v Hin).
  - exact (linksMapOf_positive _ _ _ _ Hin).
Qed.

Lemma prepareSankeyData_link_value_witness :
  value {| source := "g_Fiction"; target := "r_Average (< 3.5)"; value := 1 |}
  = passing ["Fiction"] "g_Fiction" "r_Average (< 3.5)" demoBooks.
Proof.
  refine (proj1 (prepareSankeyData_link_value demoBooks ["Fiction"]
                   {| source := "g_Fiction"; target := "r_Average (< 3.5)";
                      value := 1 |} _ _)).
  - intros g Hg. apply list_elem_of_singleton in Hg. subst g. reflexivity.
  - do 2 apply list_elem_of_further. apply list_elem_of_here.
Defined.

(** X15.  When no genre of the top list contains [|], every rating-tier
    node passes on what it receives: the values of the links into an [r_]
    node and of the links out of it both add up to the number of flowing
    records of that tier. *)
Theorem prepareSankeyData_tier_flow (data : list BookData)
    (topGenreList : list string) (node : string) :
  (forall g, g ∈ topGenreList -> pipe_free g) ->
  startsWith "r_" node = true ->
  inflow node (prepareSankeyData data topGenreList)
  = length (List.filter
              (fun b => flows b && String.eqb (ratingNodeId b) node) data)
  /\ outflow node (prepareSankeyData data topGenreList)
     = length (List.filter
                 (fun b => flows b && String.eqb (ratingNodeId b) node) data).
Proof.
  intros Htop Hnode.
  assert (Hout : outflow node (prepareSankeyData data topGenreList)
                 = length (List.filter
                     (fun b => flows b && String.eqb (ratingNodeId b) node)
                     data)).
  { unfold outflow.
    rewrite (flow_weight (fun s _ => String.eqb s node)), weight_linksMapOf.
    rewrite (List.filter_ext_in
               (fun b => flows b
                         && String.eqb (sourceOfKey (link1Key topGenreList b))
                                       node)
               (fun _ => false)).
    2:{ intros b _. rewrite (proj1 (link1Key_parts topGenreList Htop b)).
        rewrite (eqb_r_node ("g_" ++ processedGenreOf topGenreList b) node
                   Hnode eq_refl).
        apply andb_false_r. }
    rewrite (List.filter_ext
               (fun b => flows b && String.eqb (sourceOfKey (link2Key b)) node)
               (fun b => flows b && String.eqb (ratingNodeId b) node)).
    2:{ intros b. rewrite (proj1 (link2Key_parts b)). reflexivity. }
    rewrite (proj2 (filter_nil_iff (fun _ : BookData => false) data))
      by reflexivity.
    reflexivity. }
  split; [|exact Hout].
  rewrite (prepareSankeyData_tier_conserved topGenreList Htop data node Hnode).
  exact Hout.
Qed.

Lemma prepareSankeyData_tier_flow_witness :
  inflow "r_Acclaimed (4.5+)" (prepareSankeyData demoBooks ["Fiction"])
  = length (List.filter
              (fun b => flows b
                        && String.eqb (ratingNodeId b) "r_Acclaimed (4.5+)")
              demoBooks).
Proof.
  refine (proj1 (prepareSankeyData_tier_flow demoBooks ["Fiction"]
                   "r_Acclaimed (4.5+)" _ _)).
  - intros g Hg. apply list_elem_of_singleton in Hg. subst g. reflexivity.
  - reflexivity.
Defined.

(** ** More on the loader *)

Lemma number_or_zero_unusable (toNumber : string -> number)
    (c : option string) :
  unusable toNumber c ->
  JS.gt (number_or_zero toNumber c) (JS.lit 0) = false.
Proof.
  intros [-> | [-> | (s & -> & Hs)]]; try reflexivity.
  simpl. destruct (JS.truthy_str s); [exact Hs | reflexivity].
Qed.

(** X16.  A row whose [pageCount], [rating_average] or [publicationYear]
    cell is absent, empty, or read as a number that is not greater than
    zero (zero, negative, not a number) is never loaded: the absent or empty
    cell counts as zero, and the record is dropped instead of being loaded
    with a zero field. *)
Theorem loadBookData_drops_unusable (toNumber : string -> number)
    (toUpperCase : string -> string) (src : CsvSource) (d : Row) :
  unusable toNumber (d "pageCount")
  \/ unusable toNumber (d "rating_average")
  \/ unusable toNumber (d "publicationYear") ->
  convertRow toNumber toUpperCase d
    ∉ loaded (loadBookData toNumber toUpperCase src).
Proof.
  intros Hbad Hin.
  apply loaded_elem_of in Hin as (_ & _ & _ & _ & _ & Hv).
  apply validBook_true in Hv as (H1 & H2 & H3). simpl in H1, H2, H3.
  destruct Hbad as [H|[H|H]];
    apply (number_or_zero_unusable toNumber) in H; congruence.
Qed.

Lemma loadBookData_drops_unusable_witness :
  convertRow demoNumber (fun s => s) (demoRow "2" "" "4" "1999")
    ∉ loaded (loadBookData demoNumber (fun s => s)
                (CsvRows [demoRow "1" "200" "4" "2000";
                          demoRow "2" "" "4" "1999"])).
Proof.
  apply loadBookData_drops_unusable. left. right. left. reflexivity.
Defined.

(** ** More on the rating tiers *)

Lemma compare_swap (a b : number) :
  JS.compare b a = option_map CompOpp (JS.compare a b).
Proof.
  destruct a as [| |p|], b as [| |q|]; try reflexivity. simpl.
  unfold Qccompare. rewrite Qcompare_antisym. reflexivity.
Qed.

Lemma ge_trans_Fin (r r' : number) (c : Qc) :
  JS.ge r r' = true -> JS.ge r' (JS.Fin c) = true ->
  JS.ge r (JS.Fin c) = true.
Proof.
  destruct r as [| |p|], r' as [| |q|]; try discriminate; try reflexivity.
  rewrite !ge_Fin. intros H1 H2. exact (Qcle_trans _ _ _ H2 H1).
Qed.

(** X17.  [getRatingTier] is monotone: a rating that is at least another
    one ([r >= r'] holds) is never put in a lower tier. *)
Theorem getRatingTier_monotone (r r' : number) :
  JS.ge r r' = true ->
  tierRank (getRatingTier r') <= tierRank (getRatingTier r).
Proof.
  intros Hge. unfold getRatingTier, JS.lit.
  destruct (JS.ge r' (JS.Fin (Q2Qc 4.5))) eqn:A';
    [rewrite (ge_trans_Fin _ _ _ Hge A'); reflexivity|].
  destruct (JS.ge r' (JS.Fin (Q2Qc 4.0))) eqn:B'.
  { rewrite (ge_trans_Fin _ _ _ Hge B').
    destruct (JS.ge r (JS.Fin (Q2Qc 4.5))); vm_compute; lia. }
  destruct (JS.ge r' (JS.Fin (Q2Qc 3.5))) eqn:C'.
  { rewrite (ge_trans_Fin _ _ _ Hge C').
    destruct (JS.ge r (JS.Fin (Q2Qc 4.5))), (JS.ge r (JS.Fin (Q2Qc 4.0)));
      vm_compute; lia. }
  change (tierRank "Average (< 3.5)") with 0. lia.
Qed.

Lemma getRatingTier_monotone_witness :
  tierRank (getRatingTier (JS.lit 3.7))
  <= tierRank (getRatingTier (JS.lit 4.2)).
Proof.
  apply getRatingTier_monotone. reflexivity.
Defined.

(** ** The scatter plots *)

Lemma scatterKeeps_agree_valid (d : BookData) :
  validBook d = true ->
  scatterKeeps None d = scatterKeeps2 d
  /\ scatterKeeps (Some "") d = scatterKeeps2 d.
Proof.
  intros Hv. apply validBook_true in Hv as (Hp & Hr & _).
  unfold scatterKeeps, scatterKeeps2, js_le, js_lt, otherGenre, JS.ge, JS.gt
    in *.
  rewrite (compare_swap (pageCount d) (JS.lit 0)).
  rewrite (compare_swap (pageCount d) (JS.lit 1500)).
  rewrite (compare_swap (rating_average d) (JS.lit 3.0)).
  destruct (pageCount d) as [| |p|]; try discriminate Hp;
    destruct (rating_average d) as [| |q|]; try discriminate Hr;
    cbn [JS.compare JS.lit option_map] in *;
    repeat match goal with
           | |- context [(?a ?= ?b)%Qc] => destruct (a ?= b)%Qc
           | H : context [(?a ?= ?b)%Qc] |- _ => destruct (a ?= b)%Qc
           end;
    try discriminate; split; reflexivity.
Qed.

(** X18.  On the books the loader returns, the scatter plot of Homework 3
    with no genre selected and the scatter plot of Homework 2 draw the same
    records, those with fewer than 1500 pages and a rating of at least 3:
    the extra test [pageCount <= 0] and the different handling of values
    that are not numbers never matter after the loader's filter. *)
Theorem scatter_filters_agree (toNumber : string -> number)
    (toUpperCase : string -> string) (src : CsvSource) :
  scatterFilteredBooks (loaded (loadBookData toNumber toUpperCase src)) None
  = List.filter scatterKeeps2 (loaded (loadBookData toNumber toUpperCase src)).
Proof.
  unfold scatterFilteredBooks. apply List.filter_ext_in. intros d Hd.
  apply list_elem_of_In, loaded_elem_of in Hd as (_ & _ & _ & _ & _ & Hv).
  apply scatterKeeps_agree_valid, Hv.
Qed.

(** ** The brush of the scatter plot *)

Section BrushFacts.
Variable xScale : number -> number.
Variable yScale : number -> number.






End BrushFacts.

(** ** The Sankey diagram *)





Lemma brushedNodeIds_loop (brushed : gset number) (topGenres : list string)
    (filteredBooks : list BookData) (acc : gset string) (k : string) :
  k ∈ foldl (fun (acc : gset string) b =>
               if bool_decide (id b ∈ brushed) then
                 {[ movieNodeId b ]}
                 ∪ ({[ ratingNodeId b ]}
                    ∪ ({[ genreNodeId topGenres b ]} ∪ acc))
               else acc)
            acc filteredBooks
  <-> k ∈ acc
      \/ exists b, b ∈ filteredBooks /\ id b ∈ brushed
                   /\ k ∈ nodeTriple topGenres b.
Proof.
  revert acc. induction filteredBooks as [|b bs IH]; intros acc.
  - simpl. split; [auto|]. intros [H|(d & Hd & _)]; [exact H | inversion Hd].
  - cbn [foldl]. rewrite IH. case_bool_decide as Hb.
    + rewrite !elem_of_union, !elem_of_singleton. split.
      * intros [[->|[->|[->|H]]]|(d & Hd & Hin & Hk)]; auto.
        -- right. exists b. split; [apply list_elem_of_here|].
           split; [exact Hb|]. do 2 apply list_elem_of_further.
           apply list_elem_of_here.
        -- right. exists b. split; [apply list_elem_of_here|].
           split; [exact Hb|]. apply list_elem_of_further, list_elem_of_here.
        -- right. exists b. split; [apply list_elem_of_here|].
           split; [exact Hb | apply list_elem_of_here].
        -- right. exists d. split; [apply list_elem_of_further, Hd | auto].
      * intros [H|(d & Hd & Hin & Hk)]; [auto|].
        apply elem_of_cons in Hd as [->|Hd]; [|right; eauto]. left.
        unfold nodeTriple in Hk. rewrite !elem_of_cons, elem_of_nil in Hk.
        tauto.
    + split.
      * intros [H|(d & Hd & Hin & Hk)]; [auto|].
        right. exists d. split; [apply list_elem_of_further, Hd | auto].
      * intros [H|(d & Hd & Hin & Hk)]; [auto|].
        apply elem_of_cons in Hd as [->|Hd]; [contradiction|]. right. eauto.
Qed.

Lemma size_pos_iff (X : gset number) : 0 < size X <-> X <> ∅.
Proof.
  split.
  - intros H ->. rewrite size_empty in H. lia.
  - intros H. destruct (decide (size X = 0)) as [E|E]; [|lia].
    apply size_empty_iff, leibniz_equiv in E. contradiction.
Qed.

Lemma brushedNodeIds_elem_of (brushed : gset number)
    (filteredBooks : list BookData) (topGenres : list string) (k : string) :
  k ∈ brushedNodeIds brushed filteredBooks topGenres
  <-> exists b, b ∈ filteredBooks /\ id b ∈ brushed
                /\ k ∈ nodeTriple topGenres b.
Proof.
  unfold brushedNodeIds. case_bool_decide as Hs.
  - rewrite brushedNodeIds_loop. split; [|auto].
    intros [H|H]; [set_solver | exact H].
  - split; [set_solver|]. intros (b & _ & Hb & _). exfalso. apply Hs.
    apply size_pos_iff. set_solver.
Qed.

Lemma lit_1_not_015 : JS.lit 1.0 <> JS.lit 0.15.
Proof.
  intros H. apply (f_equal (fun x => JS.ge x (JS.lit 1))) in H.
  vm_compute in H. discriminate.
Qed.

Lemma lit_075_not_005 : JS.lit 0.75 <> JS.lit 0.05.
Proof.
  intros H. apply (f_equal (fun x => JS.ge x (JS.lit 0.5))) in H.
  vm_compute in H. discriminate.
Qed.

(** X21.  While the brush is not empty, the Sankey diagram dims by the
    brush alone, whatever node is selected: a node is drawn at opacity 1
    exactly when some brushed book of the diagram's books has it among its
    three node ids, and at 0.15 otherwise; a link is drawn at 0.75 exactly
    when both its ends are such nodes, and at 0.05 otherwise. *)
Theorem sankey_opacity_brushed (brushed : gset number)
    (selectedSankeyNode : option string) (filteredBooks : list BookData)
    (topGenres : list string) (nodeId srcId tgtId : string) :
  brushed <> ∅ ->
  (getNodeOpacity brushed selectedSankeyNode filteredBooks topGenres nodeId
     = JS.lit 1.0
   <-> exists b, b ∈ filteredBooks /\ id b ∈ brushed
                 /\ nodeId ∈ nodeTriple topGenres b)
  /\ (getNodeOpacity brushed selectedSankeyNode filteredBooks topGenres nodeId
        = JS.lit 1.0
      \/ getNodeOpacity brushed selectedSankeyNode filteredBooks topGenres
           nodeId = JS.lit 0.15)
  /\ (getLinkOpacity brushed selectedSankeyNode filteredBooks topGenres
        srcId tgtId = JS.lit 0.75
      <-> (exists b, b ∈ filteredBooks /\ id b ∈ brushed
                     /\ srcId ∈ nodeTriple topGenres b)
          /\ (exists b, b ∈ filteredBooks /\ id b ∈ brushed
                        /\ tgtId ∈ nodeTriple topGenres b))
  /\ (getLinkOpacity brushed selectedSankeyNode filteredBooks topGenres
        srcId tgtId = JS.lit 0.75
      \/ getLinkOpacity brushed selectedSankeyNode filteredBooks topGenres
           srcId tgtId = JS.lit 0.05).
Proof.
  intros Hne. apply size_pos_iff in Hne.
  unfold getNodeOpacity, getLinkOpacity.
  rewrite (bool_decide_eq_true_2 _ Hne).
  rewrite <- !brushedNodeIds_elem_of.
  set (BN := brushedNodeIds brushed filteredBooks topGenres).
  pose proof lit_1_not_015 as N1. pose proof lit_075_not_005 as N2.
  destruct (bool_decide (nodeId ∈ BN)) eqn:En;
    destruct (bool_decide (srcId ∈ BN)) eqn:Es;
    destruct (bool_decide (tgtId ∈ BN)) eqn:Et;
    repeat match goal with
           | E : bool_decide _ = true |- _ => apply bool_decide_eq_true in E
           | E : bool_decide _ = false |- _ => apply bool_decide_eq_false in E
           end;
    cbn [andb]; repeat split; intros; auto;
    try match goal with K : _ /\ _ |- _ => destruct K end;
    try contradiction; try congruence.
Qed.

Lemma sankey_opacity_brushed_witness :
  ({[ JS.lit 1 ]} : gset number) <> ∅
  /\ (getNodeOpacity {[ JS.lit 1 ]} (Some "g_Fiction") demoBooks ["Fiction"]
        "r_Average (< 3.5)" = JS.lit 1.0
      \/ getNodeOpacity {[ JS.lit 1 ]} (Some "g_Fiction") demoBooks ["Fiction"]
           "r_Average (< 3.5)" = JS.lit 0.15).
Proof.
  assert (H : ({[ JS.lit 1 ]} : gset number) <> ∅)
    by apply non_empty_singleton_L.
  split; [exact H|].
  exact (proj1 (proj2 (sankey_opacity_brushed {[ JS.lit 1 ]} (Some "g_Fiction")
                         demoBooks ["Fiction"] "r_Average (< 3.5)" "" "" H))).
Defined.

(** ** More on the selection *)

(** X22.  A click on a bar toggles the genre: on a genre that is not the
    selected one it selects it, and a second click on the same bar returns
    to no genre; every click on a bar empties the brush and the node
    selection. *)
Theorem barClick_toggle (s : SelectionState) (g : string) :
  selectedGenre s <> Some g ->
  selectedGenre (barClick g s) = Some g
  /\ selectedGenre (barClick g (barClick g s)) = None
  /\ (forall s', brushedIds (barClick g s') = ∅
                 /\ selectedSankeyNode (barClick g s') = None)
  /\ (forall s', selectedGenre s' = Some g ->
                 selectedGenre (barClick g s') = None).
Proof.
  intros Hne.
  assert (Hoff : forall s', selectedGenre s' = Some g ->
                            selectedGenre (barClick g s') = None).
  { intros s' H. unfold barClick. rewrite bool_decide_eq_true_2; done. }
  assert (Hon : selectedGenre (barClick g s) = Some g).
  { unfold barClick. rewrite bool_decide_eq_false_2; [done | congruence]. }
  split; [exact Hon|]. split; [apply Hoff, Hon|]. split; [|exact Hoff].
  intros s'. split; reflexivity.
Qed.

Lemma barClick_toggle_witness :
  selectedGenre initialState <> Some "Fiction"
  /\ selectedGenre (barClick "Fiction" initialState) = Some "Fiction".
Proof.
  assert (H : selectedGenre initialState <> Some "Fiction") by discriminate.
  split; [exact H|]. exact (proj1 (barClick_toggle initialState "Fiction" H)).
Defined.

(** X23.  The highlight of the scatter plot is decided by the last event
    alone, whatever the state before it: after a genre selection (handler or
    bar click) nothing is highlighted; after a brush the highlight is the
    brushed set itself (empty when the brush was cleared); after the
    selection of a node it is the set of ids of the books that have this
    node among their three node ids; after a node is deselected it is
    empty. *)
Theorem highlight_after_event (s : SelectionState)
    (allBooks : list BookData) (topGenres : list string) :
  (forall genre,
     scatterHighlightIds (handleGenreSelect genre s) allBooks topGenres = ∅)
  /\ (forall d_genre,
        scatterHighlightIds (barClick d_genre s) allBooks topGenres = ∅)
  /\ (forall ids,
        scatterHighlightIds (handleBrushChange ids s) allBooks topGenres = ids)
  /\ (forall node i,
        i ∈ scatterHighlightIds (handleNodeSelect (Some node) s)
              allBooks topGenres
        <-> exists b, b ∈ allBooks /\ id b = i
                      /\ node ∈ nodeTriple topGenres b)
  /\ scatterHighlightIds (handleNodeSelect None s) allBooks topGenres = ∅.
Proof.
  split; [|split; [|split; [|split]]].
  - intros genre. rewrite scatterHighlightIds_no_brush; reflexivity.
  - intros d_genre. rewrite scatterHighlightIds_no_brush; reflexivity.
  - intros ids. destruct (decide (ids = ∅)) as [->|Hne].
    + rewrite scatterHighlightIds_no_brush; reflexivity.
    + apply scatterHighlightIds_brush. exact Hne.
  - intros node i. rewrite scatterHighlightIds_no_brush by reflexivity.
    apply sankeyHighlightIds_elem_of.
  - rewrite scatterHighlightIds_no_brush; reflexivity.
Qed.

(** ** The genre layer and the colour scale *)

Lemma nodesMapOf_layers (data : list BookData) (topGenreList : list string)
    (k v : string) :
  (k, v) ∈ nodesMapOf data topGenreList ->
  (k = "g_" ++ v /\ (v ∈ topGenreList \/ v = "Others"))
  \/ k = "r_" ++ v \/ k = "m_" ++ v.
Proof.
  rewrite nodesMapOf_fold.
  induction data as [|b data IH] using rev_ind; [intros H; inversion H|].
  rewrite foldl_snoc. unfold nodeStep at 1.
  destruct (flows b); [|exact IH]. intros H.
  apply set_elem_of in H as [[-> ->]|H]; [auto|].
  apply set_elem_of in H as [[-> ->]|H]; [auto|].
  apply set_elem_of in H as [[-> ->]|H]; [|apply IH, H].
  left. split; [reflexivity|]. unfold processedGenreOf.
  destruct (JS.includes topGenreList (genre b)) eqn:E; [|auto].
  left. apply includes_elem_of, E.
Qed.

Lemma genreNodes_layer (data : list BookData) (topGenreList : list string)
    (nd : SankeyNodeDatum) :
  nd ∈ genreNodes (prepareSankeyData data topGenreList) ->
  node_id nd = "g_" ++ name nd
  /\ (name nd ∈ topGenreList \/ name nd = "Others").
Proof.
  unfold genreNodes. rewrite list_elem_of_In, filter_In, <- list_elem_of_In.
  intros [Hnd Hg]. rewrite prepareSankeyData_nodes in Hnd.
  apply list_elem_of_In, in_map_iff in Hnd as ([k v] & <- & Hin).
  apply list_elem_of_In, nodesMapOf_layers in Hin. simpl in *.
  destruct Hin as [H|[-> | ->]]; [exact H | discriminate | discriminate].
Qed.

Lemma sublist_map {A B : Type} (f : A -> B) (l1 l2 : list A) :
  l1 `sublist_of` l2 -> List.map f l1 `sublist_of` List.map f l2.
Proof.
  induction 1; simpl; [constructor | apply sublist_skip | apply sublist_cons];
    assumption.
Qed.

(** X24.  Every node of the genre layer is named after a genre of the top
    list or is the node Others, which is the domain of the colour scale of
    [App.tsx]; so the layer has at most one node more than the list has
    genres (at most nine for the eight top genres of the application). *)
Theorem prepareSankeyData_genre_layer (data : list BookData)
    (topGenreList : list string) :
  (forall nd, nd ∈ genreNodes (prepareSankeyData data topGenreList) ->
     name nd ∈ (topGenreList ++ ["Others"])%list)
  /\ length (genreNodes (prepareSankeyData data topGenreList))
     <= length topGenreList + 1.
Proof.
  assert (Hdom : forall nd,
            nd ∈ genreNodes (prepareSankeyData data topGenreList) ->
            name nd ∈ (topGenreList ++ ["Others"])%list).
  { intros nd Hnd. apply genreNodes_layer in Hnd as [_ [H| ->]];
      apply elem_of_app; [left; exact H | right; apply list_elem_of_here]. }
  split; [exact Hdom|].
  set (GN := genreNodes (prepareSankeyData data topGenreList)) in *.
  assert (Hids : NoDup (List.map node_id GN)).
  { apply (sublist_NoDup _ (nodeIds (prepareSankeyData data topGenreList))).
    - rewrite nodeIds_keys. apply nodesMapOf_NoDup.
    - unfold GN, genreNodes, nodeIds. apply sublist_map, filter_sublist. }
  assert (Hnames : NoDup (List.map name GN)).
  { assert (Hall : forall nd, nd ∈ GN -> node_id nd = "g_" ++ name nd)
      by (intros nd Hnd; apply (genreNodes_layer _ _ _ Hnd)).
    clearbody GN. clear Hdom.
    induction GN as [|a l IH]; simpl in *; [constructor|].
    apply NoDup_cons in Hids as [Ha Hids]. apply NoDup_cons. split.
    - intros Hin. apply Ha.
      apply list_elem_of_In, in_map_iff in Hin as (x & Hx & Hxl).
      apply list_elem_of_In, in_map_iff. exists x. split; [|exact Hxl].
      rewrite (Hall x), (Hall a), Hx;
        [reflexivity | apply list_elem_of_here |].
      apply list_elem_of_further, list_elem_of_In, Hxl.
    - apply IH; [exact Hids|]. intros nd Hnd.
      apply Hall, list_elem_of_further, Hnd. }
  rewrite <- (length_map name GN).
  replace (length topGenreList + 1)
    with (length (topGenreList ++ ["Others"])%list)
    by (rewrite length_app; reflexivity).
  apply submseteq_length, NoDup_submseteq; [exact Hnames|].
  intros x Hx. apply list_elem_of_In, in_map_iff in Hx as (nd & <- & Hnd).
  apply Hdom, list_elem_of_In, Hnd.
Qed.

(** ** Homework 2: the top genres inside [prepareSankeyData] *)

Lemma sort_insert_map {A B : Type} (h : A -> B) (cmpA : A -> A -> Z)
    (cmpB : B -> B -> Z) (x : A) (l : list A) :
  (forall a b, cmpB (h a) (h b) = cmpA a b) ->
  sort_insert cmpB (h x) (List.map h l) = List.map h (sort_insert cmpA x l).
Proof.
  intros Hc. induction l as [|y l IH]; simpl; [reflexivity|].
  rewrite Hc. destruct (cmpA x y <=? 0)%Z; simpl; [reflexivity|].
  rewrite IH. reflexivity.
Qed.

Lemma sort_map {A B : Type} (h : A -> B) (cmpA : A -> A -> Z)
    (cmpB : B -> B -> Z) (l : list A) :
  (forall a b, cmpB (h a) (h b) = cmpA a b) ->
  sort cmpB (List.map h l) = List.map h (sort cmpA l).
Proof.
  intros Hc. induction l as [|x l IH]; simpl; [reflexivity|].
  rewrite IH. apply sort_insert_map, Hc.
Qed.

Lemma genreCounts_countBy (data : list BookData) :
  genreCounts data = countBy genre data.
Proof. reflexivity. Qed.

(** X25.  The ten top genres that the [prepareSankeyData] of Homework 2
    computes for itself, from its own counters, are the list that
    [getTopGenres] returns for [n = 10] on the same data, in the same
    order. *)
Theorem topGenres10_getTopGenres (fadd fdiv : number -> number -> number)
    (data : list BookData) :
  topGenres10 data = getTopGenres fadd fdiv data 10.
Proof.
  unfold topGenres10, getTopGenres, aggregateByGenre, JSMap.entries.
  rewrite genreCounts_countBy, <- (genreMapOf_counts fadd).
  rewrite (sort_map (fun e => (fst e, gs_count (snd e))) byStatsDesc
             byEntryDesc) by reflexivity.
  rewrite (List.map_ext
             (fun '(genre, stats) =>
                {| gd_genre := genre; count := gs_count stats;
                   avgRating := fdiv (gs_totalRating stats)
                                     (JS.of_nat (gs_count stats));
                   avgPageCount := fdiv (gs_totalPages stats)
                                        (JS.of_nat (gs_count stats)) |})
             (fun e =>
                {| gd_genre := fst e; count := gs_count (snd e);
                   avgRating := fdiv (gs_totalRating (snd e))
                                     (JS.of_nat (gs_count (snd e)));
                   avgPageCount := fdiv (gs_totalPages (snd e))
                                        (JS.of_nat (gs_count (snd e))) |}))
    by (intros [g st]; reflexivity).
  rewrite (sort_map _ byStatsDesc byCountDesc) by reflexivity.
  rewrite <- !slice0_map, !List.map_map. reflexivity.
Qed.

Example topGenres10_example :
  topGenres10 threeGenres = ["B"; "A"; "C"].
Proof. reflexivity. Qed.

(** ** Homework 2: the totals of the graph *)

Lemma sankeyStep2_links (topGenres : list string)
    (acc : JSMap.t string * JSMap.t nat) (b : BookData) :
  snd (sankeyStep2 topGenres acc b) = linkStep2 topGenres (snd acc) b.
Proof.
  destruct acc as [nodesMap lm]. unfold sankeyStep2, linkStep2.
  rewrite <- negb_andb. fold (flows2 b). destruct (flows2 b); reflexivity.
Qed.

Lemma prepareSankeyData2_links (data : list BookData) :
  links (prepareSankeyData2 data)
  = List.map linkOfEntry
      (foldl (linkStep2 (topGenres10 data)) JSMap.empty data).
Proof.
  unfold prepareSankeyData2, JSMap.entries.
  generalize (topGenres10 data). intros top.
  assert (H : forall acc,
            snd (foldl (sankeyStep2 top) acc data)
            = foldl (linkStep2 top) (snd acc) data).
  { induction data as [|b data IH]; intros acc; [reflexivity|].
    cbn [foldl]. rewrite IH, sankeyStep2_links. reflexivity. }
  specialize (H (JSMap.empty, JSMap.empty)).
  destruct (foldl (sankeyStep2 top) (JSMap.empty, JSMap.empty) data).
  simpl in *. rewrite H. reflexivity.
Qed.

Lemma weight_links2 (p : string -> bool) (topGenres : list string)
    (data : list BookData) :
  weight p (foldl (linkStep2 topGenres) JSMap.empty data)
  = length (List.filter (fun b => flows2 b && p (link1Key2 topGenres b)) data)
    + length (List.filter (fun b => flows2 b && p (link2Key2 b)) data).
Proof.
  induction data as [|b data IH] using rev_ind; [reflexivity|].
  rewrite foldl_snoc, !List.filter_app, !length_app. unfold linkStep2 at 1.
  cbn [List.filter]. destruct (flows2 b); cbn [andb].
  - rewrite !weight_bump, IH.
    destruct (p (link1Key2 topGenres b)), (p (link2Key2 b)); simpl; lia.
  - rewrite IH. simpl. lia.
Qed.

Lemma flow_entries (q : string -> string -> bool) (m : JSMap.t nat) :
  list_sum (List.map value
              (List.filter (fun l => q (source l) (target l))
                           (List.map linkOfEntry m)))
  = weight (fun k => q (sourceOfKey k) (targetOfKey k)) m.
Proof.
  unfold weight. induction m as [|[k v] m IH]; [reflexivity|].
  simpl. fold (sourceOfKey k) (targetOfKey k).
  destruct (q (sourceOfKey k) (targetOfKey k)); simpl; rewrite IH; reflexivity.
Qed.

Lemma link1Key2_head (topGenres : list string) (b : BookData) :
  link1Key2 topGenres b
  = String "g" (String "_"
      ((if JS.includes topGenres (genre b) then genre b else "Others")
       ++ "|" ++ ("a_" ++ age_category b))).
Proof. reflexivity. Qed.

Lemma link2Key2_head (b : BookData) :
  link2Key2 b
  = String "a" (String "_"
      (age_category b ++ "|"
       ++ ("m_" ++ (if adapted_to_movie b then "Adapted to Movie"
                    else "Not Adapted")))).
Proof. reflexivity. Qed.

(** X26.  In the graph of Homework 2 every record with a genre and an age
    category adds one to exactly two links, one of which leaves the genre
    layer: the values of all links add up to twice the number of such
    records, and those of the links whose source begins with [g_] add up to
    that number.  Records without genre or age category add nothing. *)
Theorem prepareSankeyData2_totals (data : list BookData) :
  flow (fun _ => true) (prepareSankeyData2 data)
  = 2 * length (List.filter flows2 data)
  /\ flow (fun l => startsWith "g_" (source l)) (prepareSankeyData2 data)
     = length (List.filter flows2 data).
Proof.
  unfold flow. rewrite prepareSankeyData2_links. split.
  - rewrite (flow_entries (fun _ _ => true)), weight_links2.
    rewrite (List.filter_ext (fun b => flows2 b && true) flows2)
      by (intros b; apply andb_true_r).
    lia.
  - rewrite (flow_entries (fun s _ => startsWith "g_" s)), weight_links2.
    rewrite (List.filter_ext
               (fun b => flows2 b
                  && startsWith "g_"
                       (sourceOfKey (link1Key2 (topGenres10 data) b)))
               flows2).
    2:{ intros b. rewrite link1Key2_head.
        rewrite !sourceOfKey_String by reflexivity.
        destruct (flows2 b); reflexivity. }
    rewrite (List.filter_ext
               (fun b => flows2 b
                  && startsWith "g_" (sourceOfKey (link2Key2 b)))
               (fun _ => false)).
    2:{ intros b. rewrite link2Key2_head.
        rewrite !sourceOfKey_String by reflexivity.
        destruct (flows2 b); reflexivity. }
    rewrite (proj2 (filter_nil_iff (fun _ : BookData => false) data))
      by reflexivity.
    simpl. lia.
Qed.

Example prepareSankeyData2_example :
  links (prepareSankeyData2
           [bookAged 1 "Fiction" "Adult" true; bookAged 2 "Fiction" "" true;
            bookAged 3 "Fiction" "Adult" true])
  = [ {| source := "g_Fiction"; target := "a_Adult"; value := 2 |};
      {| source := "a_Adult"; target := "m_Adapted to Movie"; value := 2 |} ].
Proof. reflexivity. Qed.
